(** * Audio converter (WAV / OGG / MP3 to M4A): a shallow embedding

    The program is a Streamlit page that locates an ffmpeg executable,
    writes every uploaded file to a scoped temporary directory, calls
    ffmpeg on it, and offers the results for download (one file, or a ZIP
    archive).  All interesting behaviour is orchestration over an operating
    system, so the embedding is a state-and-exception monad over a model of
    the world:

    - the file system holds regular files (a finite map from path strings
      to contents) and directories (a finite set of path strings);
    - launching a process, failing to open a file for writing, the choice of
      the temporary directory and zlib's deflate are oracles of the
      environment ([Env]); a property stated for every [Env] holds whatever
      ffmpeg and the disk do;
    - every Streamlit call appends an event to a log, the widgets return
      what the user did ([UserInput]);
    - Python exceptions are values of [exn]; [try]/[except] and [with] are
      combinators of the monad;
    - [(i + 1) / total_files] is a binary64 division ([SpecFloat]).

    Paths follow [pathlib.PurePosixPath] and [posixpath] (Python 3.4 to
    3.13 for [stem]).  A file is identified by the string [pathlib] prints
    for its path: symbolic links are not modelled, and a [".."] component is
    kept as [pathlib] keeps it, so that "below a directory" is only said of
    paths without one. *)

From Stdlib Require Import ZArith Ascii String List Floats.SpecFloat.
From Stdlib Require Import Strings.Byte DecimalString.
From stdpp Require Import base option list gmap strings fin_maps.

Local Open Scope Z_scope.

(** ** Python strings *)

Module PyStr.

(** [s.rfind(c)]: index of the last occurrence, [None] for Python's -1. *)
Fixpoint rfind (c : ascii) (s : string) : option nat :=
  match s with
  | EmptyString => None
  | String a s' =>
      match rfind c s' with
      | Some i => Some (S i)
      | None => if Ascii.eqb a c then Some 0%nat else None
      end
  end.

(** [s.split(c)]: never empty, [""] splits to [[""]]. *)
Fixpoint split (c : ascii) (s : string) : list string :=
  match s with
  | EmptyString => [EmptyString]
  | String a s' =>
      if Ascii.eqb a c then EmptyString :: split c s'
      else match split c s' with
           | hd :: tl => String a hd :: tl
           | [] => [String a EmptyString]
           end
  end.

(** [sep.join(parts)] *)
Fixpoint join (sep : string) (parts : list string) : string :=
  match parts with
  | [] => EmptyString
  | [x] => x
  | x :: rest => x +:+ sep +:+ join sep rest
  end.

(** [s[:i]] and [s[i:]] for [0 <= i]. *)
Definition take (i : nat) (s : string) : string := String.substring 0 i s.
Definition drop (i : nat) (s : string) : string :=
  String.substring i (String.length s - i) s.

Definition startswith (p s : string) : bool := String.prefix p s.

Fixpoint endswith_char (c : ascii) (s : string) : bool :=
  match s with
  | EmptyString => false
  | String a EmptyString => Ascii.eqb a c
  | String _ s' => endswith_char c s'
  end.

Definition is_empty (s : string) : bool :=
  match s with EmptyString => true | _ => false end.

(** [c in s] *)
Fixpoint contains (c : ascii) (s : string) : bool :=
  match s with
  | EmptyString => false
  | String a s' => Ascii.eqb a c || contains c s'
  end.

(** [str(n)] for a non-negative integer. *)
Definition of_nat (n : nat) : string :=
  NilEmpty.string_of_uint (Nat.to_uint n).

End PyStr.

(** ** [posixpath] and [pathlib.PurePosixPath] *)

Module posixpath.

Definition sep : ascii := "/"%char.

(** [posixpath.splitroot]: the drive is always empty and is left out.
    Exactly two leading slashes form the root ["//"]. *)
Definition splitroot (p : string) : string * string :=
  match p with
  | String "/" (String "/" (String "/" _)) => ("/", PyStr.drop 1 p)
  | String "/" (String "/" r) => ("//", r)
  | String "/" r => ("/", r)
  | _ => ("", p)
  end.

(** [posixpath.basename(p)]: [p[p.rfind('/') + 1:]] *)
Definition basename (p : string) : string :=
  match PyStr.rfind sep p with
  | Some i => PyStr.drop (S i) p
  | None => p
  end.

End posixpath.

(** A pure path in parsed form: the root (["", "/" or "//"]) and the
    components after it.  [pathlib] drops empty components and ["."]. *)
Record PurePath := mkPath { root : string; tail : list string }.

Definition keep_part (x : string) : bool :=
  negb (PyStr.is_empty x) && negb (String.eqb x ".").

(** [PurePosixPath._parse_path] *)
Definition parse_path (path : string) : PurePath :=
  if PyStr.is_empty path then mkPath "" []
  else
    let '(r, rel) := posixpath.splitroot path in
    mkPath r (List.filter keep_part (PyStr.split posixpath.sep rel)).

(** [Path(s)] *)
Definition Path (s : string) : PurePath := parse_path s.

(** [str(p)] *)
Definition path_str (p : PurePath) : string :=
  if negb (PyStr.is_empty (root p)) then root p +:+ PyStr.join "/" (tail p)
  else match tail p with
       | [] => "."
       | _ => PyStr.join "/" (tail p)
       end.

(** [p / key] for a string [key]: an absolute key replaces the path,
    a relative one appends its components. *)
Definition truediv (p : PurePath) (key : string) : PurePath :=
  let k := parse_path key in
  if negb (PyStr.is_empty (root k)) then k
  else mkPath (root p) (tail p ++ tail k).

(** [p.name] *)
Definition path_name (p : PurePath) : string := List.last (tail p) "".

(** [p.stem] (Python 3.4 to 3.13): the name without its last suffix; a
    leading or a trailing dot does not start a suffix. *)
Definition path_stem (p : PurePath) : string :=
  let name := path_name p in
  match PyStr.rfind "." name with
  | Some i =>
      if (0 <? i)%nat && (i <? String.length name - 1)%nat
      then PyStr.take i name else name
  | None => name
  end.

(** ** Exceptions, the world and the environment *)

Inductive ExnClass :=
| CalledProcessError | FileNotFoundError | PermissionError | IsADirectoryError
| FileExistsError | OSError | UnicodeDecodeError | ZeroDivisionError
| AttributeError | OtherException.

(** An exception object: its class and [str(e)].  Every class above derives
    from [Exception]; [KeyboardInterrupt] and [SystemExit], which do not, are
    asynchronous and are not part of the model. *)
Record exn := mkExn { exn_class : ExnClass; exn_msg : string }.

Global Instance ExnClass_eq_dec : EqDecision ExnClass.
Proof. solve_decision. Defined.

Inductive Result (A : Type) :=
| Ret (a : A)
| Raise (e : exn).
Arguments Ret {A} a.
Arguments Raise {A} e.

(** Regular files with their contents, and directories, by path string. *)
Record FS := mkFS {
  files : gmap string (list byte);
  dirs : gset string
}.

(** What [subprocess.run] can observe of a launch: the child ran and
    exited, or [run] raised (the executable is missing or is not
    executable, the captured output does not decode, ...). *)
Inductive ProcOutcome :=
| Exited (returncode : Z) (stdout stderr : string)
| RunRaised (e : exn).

Record Env := mkEnv {
  (** launching [argv]: the outcome and the file system the child leaves *)
  spawn : list string -> FS -> ProcOutcome * FS;
  (** why [open(path, "wb")] fails, if it does *)
  open_wb_error : string -> FS -> option exn;
  (** the directory name [tempfile.mkdtemp] picks *)
  mkdtemp : FS -> string;
  (** [zlib] deflate, used by [zipfile] for [ZIP_DEFLATED] entries *)
  deflate : list byte -> list byte
}.

(** One member of a ZIP archive, in the order of writing. *)
Record ZipEntry := mkZipEntry {
  arcname : string;
  is_dir_entry : bool;
  compressed : list byte
}.

Inductive Payload :=
| FileBytes (b : list byte)
| ZipBytes (entries : list ZipEntry).

(** The argument of [progress_bar.progress]: [st.progress(0)] passes an
    [int], the loop passes a binary64 [float]. *)
Inductive ProgressValue :=
| PInt (z : Z)
| PFloat (f : spec_float).

(** The Streamlit calls of the page, in the order they are made. *)
Inductive UIEvent :=
| st_set_page_config (page_title page_icon layout : string)
| st_title (body : string)
| st_markdown (body : string)
| st_sidebar_header (body : string)
| st_sidebar_selectbox (label : string) (options : list string) (index : nat)
| st_spinner (text : string)
| st_error (body : string)
| st_success (body : string)
| st_header (body : string)
| st_subheader (body : string)
| st_write (body : string)
| st_file_uploader (label : string) (types : list string)
| st_button (label : string)
| st_progress (value : ProgressValue)
| st_empty
| st_status_text (body : string)
| st_columns (n : nat)
| st_metric (label : string) (value : nat)
| st_download_button (label : string) (data : Payload) (file_name mime : string).

(** [st.session_state]: an attribute is [None] until it is first assigned. *)
Record SessionState := mkSession {
  ffmpeg_checked : option bool;
  ffmpeg_path : option (option string)
}.

Record World := mkWorld {
  fs : FS;
  ui : list UIEvent;
  session : SessionState;
  (** every argument list handed to [subprocess.run], oldest first *)
  launched : list (list string)
}.

(** An uploaded file: [uploaded_file.name] and what [read()] returns. *)
Record UploadedFile := mkUpload { name : string; data : list byte }.

(** What the user did on the page in this run of the script. *)
Record UserInput := mkInput {
  quality_choice : option nat;
  uploads : list UploadedFile;
  convert_clicked : bool
}.

(** ** The monad: state [World], exceptions [exn] *)

Definition M (A : Type) : Type := World -> Result A * World.

Definition ret {A} (a : A) : M A := fun w => (Ret a, w).
Definition raise {A} (e : exn) : M A := fun w => (Raise e, w).
Definition bind {A B} (m : M A) (k : A -> M B) : M B :=
  fun w => match m w with
           | (Ret a, w') => k a w'
           | (Raise e, w') => (Raise e, w')
           end.

Notation "x <- c1 ;; c2" := (bind c1 (fun x => c2))
  (at level 100, c1 at next level, right associativity).
Notation "c1 ;;; c2" := (bind c1 (fun _ => c2))
  (at level 100, right associativity).

(** [try: body  except Exception as e: handler e] when [catches e] holds;
    another exception passes through.  What the body did before it raised
    stays done. *)
Definition try_except {A} (body : M A) (catches : exn -> bool)
    (handler : exn -> M A) : M A :=
  fun w => match body w with
           | (Ret a, w') => (Ret a, w')
           | (Raise e, w') => if catches e then handler e w' else (Raise e, w')
           end.

Definition except_Exception (e : exn) : bool := true.

Definition get_fs : M FS := fun w => (Ret (fs w), w).
Definition put_fs (f : FS) : M unit :=
  fun w => (Ret tt, mkWorld f (ui w) (session w) (launched w)).
Definition get_session : M SessionState := fun w => (Ret (session w), w).
Definition put_session (s : SessionState) : M unit :=
  fun w => (Ret tt, mkWorld (fs w) (ui w) s (launched w)).
(** a Streamlit call *)
Definition st (e : UIEvent) : M unit :=
  fun w => (Ret tt, mkWorld (fs w) (ui w ++ [e]) (session w) (launched w)).
Definition log_launch (argv : list string) : M unit :=
  fun w => (Ret tt, mkWorld (fs w) (ui w) (session w) (launched w ++ [argv])).

(** ** Python values and formatting *)

(** [float(z)] and [a / b] on [int]s, in IEEE 754 binary64 (round to nearest
    even); [a / b] raises on a zero divisor.  For operands below 2^53, of
    which list lengths are, this is Python's correctly rounded quotient. *)
Definition float_of_int (z : Z) : spec_float :=
  binary_normalize 53 1024 z 0 false.

Definition py_truediv (a b : Z) : M spec_float :=
  if b =? 0 then raise (mkExn ZeroDivisionError "division by zero")
  else ret (SFdiv 53 1024 (float_of_int a) (float_of_int b)).

(** [bool(x)] for an optional string: [None] and [""] are false. *)
Definition truthy (x : option string) : bool :=
  match x with
  | Some s => negb (PyStr.is_empty s)
  | None => false
  end.

(** [f"{x}"] for an optional string. *)
Definition fmt_opt (x : option string) : string :=
  match x with Some s => s | None => "None" end.

(** [f"{n:,}"]: decimal digits in groups of three. *)
Fixpoint group3 (rev_digits : list ascii) (k : nat) : list ascii :=
  match rev_digits with
  | [] => []
  | d :: rest =>
      match k, rest with
      | 2%nat, _ :: _ => d :: ","%char :: group3 rest 0
      | _, _ => d :: group3 rest (S k)
      end
  end.

Definition fmt_thousands (n : nat) : string :=
  string_of_list_ascii
    (List.rev (group3 (List.rev (list_ascii_of_string (PyStr.of_nat n))) 0)).

(** ** The operating system *)

Definition path_exists (p : string) (f : FS) : bool :=
  bool_decide (is_Some (files f !! p)) || bool_decide (p ∈ dirs f).

(** [os.path.exists(p)] *)
Definition os_path_exists (p : string) : M bool :=
  f <- get_fs ;; ret (path_exists p f).

(** [with open(p, "wb") as f: f.write(b)] *)
Definition open_wb_write (env : Env) (p : string) (b : list byte) : M unit :=
  f <- get_fs ;;
  if bool_decide (p ∈ dirs f) then
    raise (mkExn IsADirectoryError ("[Errno 21] Is a directory: '" +:+ p +:+ "'"))
  else match open_wb_error env p f with
       | Some e => raise e
       | None => put_fs (mkFS (<[p := b]> (files f)) (dirs f))
       end.

(** [with open(p, "rb") as f: f.read()] *)
Definition open_rb_read (p : string) : M (list byte) :=
  f <- get_fs ;;
  match files f !! p with
  | Some b => ret b
  | None =>
      if bool_decide (p ∈ dirs f) then
        raise (mkExn IsADirectoryError ("[Errno 21] Is a directory: '" +:+ p +:+ "'"))
      else
        raise (mkExn FileNotFoundError
                 ("[Errno 2] No such file or directory: '" +:+ p +:+ "'"))
  end.

(** [p.mkdir()] *)
Definition mkdir (p : PurePath) : M unit :=
  f <- get_fs ;;
  let k := path_str p in
  if path_exists k f then
    raise (mkExn FileExistsError ("[Errno 17] File exists: '" +:+ k +:+ "'"))
  else put_fs (mkFS (files f) ({[ k ]} ∪ dirs f)).

Fixpoint is_prefix (l1 l2 : list string) : bool :=
  match l1, l2 with
  | [], _ => true
  | x :: l1', y :: l2' => String.eqb x y && is_prefix l1' l2'
  | _ :: _, [] => false
  end.

(** No component is [".."]: read without the file system, the components
    lead downwards only. *)
Definition no_dotdot (l : list string) : bool :=
  forallb (fun c => negb (String.eqb c "..")) l.

(** [p] names the directory [d] or something below it: [p] continues [d],
    component by component, without stepping back up. *)
Definition is_under (d p : string) : bool :=
  String.eqb (root (Path p)) (root (Path d))
  && is_prefix (tail (Path d)) (tail (Path p))
  && no_dotdot (List.skipn (List.length (tail (Path d))) (tail (Path p))).

(** [shutil.rmtree(d)] *)
Definition rmtree (d : string) (f : FS) : FS :=
  mkFS (filter (fun kv => is_under d kv.1 = false) (files f))
       (filter (fun k => is_under d k = false) (dirs f)).

(** [tempfile.TemporaryDirectory()] on entry and on exit of the [with]. *)
Definition enter_tmp (temp_dir : string) (w : World) : World :=
  mkWorld (mkFS (files (fs w)) ({[ temp_dir ]} ∪ dirs (fs w)))
          (ui w) (session w) (launched w).

Definition leave_tmp (temp_dir : string) (w : World) : World :=
  mkWorld (rmtree temp_dir (fs w)) (ui w) (session w) (launched w).

(** [with tempfile.TemporaryDirectory() as temp_dir: body temp_dir]: the
    directory is created on entry, and the tree is removed on exit whether
    the body returns or raises. *)
Definition with_TemporaryDirectory {A} (env : Env) (body : string -> M A) : M A :=
  fun w =>
    let temp_dir := mkdtemp env (fs w) in
    let '(r, w1) := body temp_dir (enter_tmp temp_dir w) in
    (r, leave_tmp temp_dir w1).

Record CompletedProcess := mkCompleted {
  returncode : Z;
  stdout : string;
  stderr : string
}.

(** [subprocess.run(argv, capture_output=True, check=check, ...)].  The text
    of [CalledProcessError] is abridged: the program never reads it. *)
Definition subprocess_run (env : Env) (argv : list string) (check : bool)
    : M CompletedProcess :=
  f <- get_fs ;;
  log_launch argv ;;;
  let '(outcome, f') := spawn env argv f in
  put_fs f' ;;;
  match outcome with
  | RunRaised e => raise e
  | Exited rc out err =>
      if check && negb (rc =? 0) then
        raise (mkExn CalledProcessError
                 ("Command returned non-zero exit status " +:+
                  PyStr.of_nat (Z.to_nat rc) +:+ "."))
      else ret (mkCompleted rc out err)
  end.

(** ** The program *)

Section Program.

Variable env : Env.

(** *** [check_ffmpeg] *)

Definition ffmpeg_paths : list string :=
  [ "ffmpeg";
    "../ffmpeg.exe";
    "../ffmpeg";
    "../ffmpeg/bin/ffmpeg.exe";
    "../ffmpeg/bin/ffmpeg" ].

(** [except (subprocess.CalledProcessError, FileNotFoundError)] *)
Definition except_probe (e : exn) : bool :=
  match exn_class e with
  | CalledProcessError | FileNotFoundError => true
  | _ => false
  end.

(** The [for] loop of [check_ffmpeg] over the candidates still to try:
    [return] leaves the loop with the candidate, [continue] goes on. *)
Fixpoint check_ffmpeg_from (paths : list string) : M (option string) :=
  match paths with
  | [] => ret None
  | ffmpeg_path :: rest =>
      try_except
        (subprocess_run env [ffmpeg_path; "-version"] true ;;;
         ret (Some ffmpeg_path))
        except_probe
        (fun _ => check_ffmpeg_from rest)
  end.

Definition check_ffmpeg : M (option string) := check_ffmpeg_from ffmpeg_paths.

(** *** [convert_to_m4a] *)

Definition output_path_for (input_file_path output_dir : string) : PurePath :=
  truediv (Path output_dir) (path_stem (Path input_file_path) +:+ ".m4a").

Definition ffmpeg_cmd (input_file_path output_dir quality ffmpeg_path : string)
    : list string :=
  let input_path := Path input_file_path in
  let output_path := output_path_for input_file_path output_dir in
  [ ffmpeg_path;
    "-i"; path_str input_path;
    "-c:a"; "aac";
    "-b:a"; quality;
    "-movflags"; "+faststart";
    "-y";
    path_str output_path ].

(** Returns [(success, output_path, error_message)]. *)
Definition convert_to_m4a (input_file_path output_dir quality ffmpeg_path : string)
    : M (bool * option string * option string) :=
  try_except
    (let output_path := output_path_for input_file_path output_dir in
     let cmd := ffmpeg_cmd input_file_path output_dir quality ffmpeg_path in
     result <- subprocess_run env cmd false ;;
     if returncode result =? 0
     then ret (true, Some (path_str output_path), None)
     else ret (false, None, Some (stderr result)))
    except_Exception
    (fun e => ret (false, None, Some (exn_msg e))).

(** *** [create_zip_file] *)

(** [zipfile] normalises the archive name; for a base name only the empty
    one changes. *)
Definition zip_arcname (base : string) : string :=
  if PyStr.is_empty base then "." else base.

(** [zip_file.write(file_path, arcname)] *)
Definition ZipFile_write (zip_file : list ZipEntry) (file_path arc : string)
    : M (list ZipEntry) :=
  f <- get_fs ;;
  match files f !! file_path with
  | Some b =>
      ret (zip_file ++ [mkZipEntry (zip_arcname arc) false (deflate env b)])
  | None =>
      if bool_decide (file_path ∈ dirs f)
      then ret (zip_file ++ [mkZipEntry (zip_arcname arc +:+ "/") true []])
      else raise (mkExn FileNotFoundError
                    ("[Errno 2] No such file or directory: '" +:+ file_path +:+ "'"))
  end.

Fixpoint zip_each (file_paths : list string) (zip_file : list ZipEntry)
    : M (list ZipEntry) :=
  match file_paths with
  | [] => ret zip_file
  | file_path :: rest =>
      present <- os_path_exists file_path ;;
      if present then
        z <- ZipFile_write zip_file file_path (posixpath.basename file_path) ;;
        zip_each rest z
      else zip_each rest zip_file
  end.

(** The bytes returned are modelled by the members they encode. *)
Definition create_zip_file (file_paths : list string) (zip_name : string)
    : M (list ZipEntry) :=
  zip_each file_paths [].

(** *** [convert_files] *)

(** The two lists the loop appends to. *)
Record Lists := mkLists {
  converted_files : list string;
  errors : list string
}.

(** One iteration of the [for] loop, for the item at index [i]. *)
Definition convert_one (temp_input_dir temp_output_dir : PurePath)
    (quality ffmpeg_path : string) (total_files i : nat)
    (uploaded_file : UploadedFile) (l : Lists) : M Lists :=
  progress <- py_truediv (Z.of_nat i + 1) (Z.of_nat total_files) ;;
  st (st_progress (PFloat progress)) ;;;
  st (st_status_text ("変換中: " +:+ name uploaded_file +:+ " ("
                      +:+ PyStr.of_nat (i + 1) +:+ "/"
                      +:+ PyStr.of_nat total_files +:+ ")")) ;;;
  try_except
    (let input_file_path := truediv temp_input_dir (name uploaded_file) in
     open_wb_write env (path_str input_file_path) (data uploaded_file) ;;;
     r <- convert_to_m4a (path_str input_file_path) (path_str temp_output_dir)
                         quality ffmpeg_path ;;
     let '(success, output_path, error_msg) := r in
     if success then
       match output_path with
       | Some out =>
           st (st_success ("✅ " +:+ name uploaded_file +:+ " → "
                           +:+ path_name (Path out))) ;;;
           ret (mkLists (converted_files l ++ [out]) (errors l))
       | None =>
           (* [Path(None)]; not reached, [convert_to_m4a] returns a path
              with every [True] *)
           raise (mkExn OtherException
                    "expected str, bytes or os.PathLike object, not NoneType")
       end
     else
       st (st_error ("❌ " +:+ name uploaded_file +:+ " の変換に失敗しました")) ;;;
       ret (mkLists (converted_files l)
                    (errors l ++ ["❌ " +:+ name uploaded_file +:+ ": "
                                  +:+ fmt_opt error_msg])))
    except_Exception
    (fun e =>
       let error_msg := "❌ " +:+ name uploaded_file +:+ ": " +:+ exn_msg e in
       st (st_error error_msg) ;;;
       ret (mkLists (converted_files l) (errors l ++ [error_msg]))).

(** [for i, uploaded_file in enumerate(uploaded_files)], from index [i]. *)
Fixpoint convert_each (temp_input_dir temp_output_dir : PurePath)
    (quality ffmpeg_path : string) (total_files i : nat)
    (uploaded_files : list UploadedFile) (l : Lists) : M Lists :=
  match uploaded_files with
  | [] => ret l
  | uploaded_file :: rest =>
      l' <- convert_one temp_input_dir temp_output_dir quality ffmpeg_path
                        total_files i uploaded_file l ;;
      convert_each temp_input_dir temp_output_dir quality ffmpeg_path
                   total_files (S i) rest l'
  end.

Fixpoint write_each (lines : list string) : M unit :=
  match lines with
  | [] => ret tt
  | x :: rest => st (st_write x) ;;; write_each rest
  end.

(** The download section, after the results were shown. *)
Definition offer_download (converted : list string) : M unit :=
  match converted with
  | [] => ret tt
  | first :: others =>
      st (st_header "📥 ダウンロード") ;;;
      if (List.length converted =? 1)%nat then
        b <- open_rb_read first ;;
        st (st_download_button "📁 変換ファイルをダウンロード" (FileBytes b)
              (posixpath.basename first) "audio/mp4")
      else
        zip_data <- create_zip_file converted "converted_files.zip" ;;
        st (st_download_button
              ("📦 全ファイルをZIPでダウンロード ("
               +:+ PyStr.of_nat (List.length converted) +:+ " ファイル)")
              (ZipBytes zip_data) "converted_audio_files.zip" "application/zip")
  end.

(** [if errors: ...] *)
Definition show_errors (errs : list string) : M unit :=
  match errs with
  | [] => ret tt
  | _ :: _ => st (st_subheader "❌ エラーファイル") ;;; write_each errs
  end.

(** The body of the [with] block up to the report of the results. *)
Definition batch_report (uploaded_files : list UploadedFile)
    (quality ffmpeg_path temp_dir : string) : M Lists :=
  let temp_input_dir := truediv (Path temp_dir) "input" in
  let temp_output_dir := truediv (Path temp_dir) "output" in
  mkdir temp_input_dir ;;;
  mkdir temp_output_dir ;;;
  st (st_progress (PInt 0)) ;;;
  st st_empty ;;;
  let total_files := List.length uploaded_files in
  l <- convert_each temp_input_dir temp_output_dir quality ffmpeg_path
                    total_files 0 uploaded_files (mkLists [] []) ;;
  st (st_status_text "変換完了!") ;;;
  st (st_header "📊 変換結果") ;;;
  st (st_columns 2) ;;;
  st (st_metric "成功" (List.length (converted_files l))) ;;;
  st (st_metric "失敗" (List.length (errors l))) ;;;
  show_errors (errors l) ;;;
  ret l.

(** The body of the [with] block. *)
Definition convert_files_in (uploaded_files : list UploadedFile)
    (quality ffmpeg_path temp_dir : string) : M unit :=
  l <- batch_report uploaded_files quality ffmpeg_path temp_dir ;;
  offer_download (converted_files l).

Definition convert_files (uploaded_files : list UploadedFile)
    (quality ffmpeg_path : string) : M unit :=
  with_TemporaryDirectory env
    (convert_files_in uploaded_files quality ffmpeg_path).

(** *** [main] *)

Definition quality_options : list (string * string) :=
  [ ("128k", "128 kbps (標準)");
    ("192k", "192 kbps (高品質)");
    ("256k", "256 kbps (最高品質)");
    ("320k", "320 kbps (最高品質+)") ].

(** What [st.sidebar.selectbox] returns: the option the user picked, the
    one at [index] when the widget was not touched. *)
Definition selectbox_value (options : list string) (index : nat)
    (choice : option nat) : string :=
  let dflt := List.nth index options "" in
  match choice with
  | Some k => List.nth k options dflt
  | None => dflt
  end.

Definition session_ffmpeg_checked : M bool :=
  s <- get_session ;;
  match ffmpeg_checked s with
  | Some b => ret b
  | None => raise (mkExn AttributeError "st.session_state has no attribute ffmpeg_checked")
  end.

Definition session_ffmpeg_path : M (option string) :=
  s <- get_session ;;
  match ffmpeg_path s with
  | Some p => ret p
  | None => raise (mkExn AttributeError "st.session_state has no attribute ffmpeg_path")
  end.

Definition install_guidance : string := "
        **FFmpegをインストールしてください:**
        - Windows: https://ffmpeg.org/download.html
        - macOS: `brew install ffmpeg`
        - Ubuntu: `sudo apt install ffmpeg`
        ".

(** [for i, file in enumerate(uploaded_files): st.write(...)];
    [file.size] is the length of the payload. *)
Fixpoint list_uploads (i : nat) (uploaded_files : list UploadedFile) : M unit :=
  match uploaded_files with
  | [] => ret tt
  | file :: rest =>
      st (st_write ("**" +:+ PyStr.of_nat (i + 1) +:+ ".** " +:+ name file
                    +:+ " (" +:+ fmt_thousands (List.length (data file))
                    +:+ " bytes)")) ;;;
      list_uploads (S i) rest
  end.

Definition main (inp : UserInput) : M unit :=
  st (st_set_page_config "音声ファイル変換アプリ" "🎵" "wide") ;;;
  st (st_title "🎵 音声ファイル変換アプリ") ;;;
  st (st_markdown "WAV、OGG、MP3ファイルをM4A形式に変換します") ;;;
  st (st_sidebar_header "変換設定") ;;;
  let options := List.map fst quality_options in
  st (st_sidebar_selectbox "音質設定" options 1) ;;;
  let quality := selectbox_value options 1 (quality_choice inp) in
  s <- get_session ;;
  (match ffmpeg_checked s with
   | None => put_session (mkSession (Some false) (Some None))
   | Some _ => ret tt
   end) ;;;
  checked <- session_ffmpeg_checked ;;
  (if negb checked then
     st (st_spinner "FFmpegを確認中...") ;;;
     found <- check_ffmpeg ;;
     s1 <- get_session ;;
     put_session (mkSession (ffmpeg_checked s1) (Some found)) ;;;
     s2 <- get_session ;;
     put_session (mkSession (Some true) (ffmpeg_path s2))
   else ret tt) ;;;
  located <- session_ffmpeg_path ;;
  if negb (truthy located) then
    st (st_error "❌ FFmpegが見つかりません") ;;;
    st (st_markdown install_guidance)
  else
    st (st_success ("✅ FFmpegが見つかりました: " +:+ fmt_opt located)) ;;;
    st (st_header "📁 ファイルアップロード") ;;;
    st (st_file_uploader "音声ファイルを選択してください" ["wav"; "ogg"; "mp3"]) ;;;
    let uploaded_files := uploads inp in
    match uploaded_files with
    | [] => ret tt
    | _ :: _ =>
        st (st_success ("📂 " +:+ PyStr.of_nat (List.length uploaded_files)
                        +:+ " ファイルが選択されました")) ;;;
        list_uploads 0 uploaded_files ;;;
        st (st_button "🚀 変換開始") ;;;
        if convert_clicked inp
        then convert_files uploaded_files quality (fmt_opt located)
        else ret tt
    end.

End Program.

(** ** Well-formed paths *)

(** A path component as [pathlib] keeps it: not empty, not ["."], no
    separator inside. *)
Definition good_part (x : string) : bool :=
  keep_part x && negb (PyStr.contains posixpath.sep x).

Definition wf_path (p : PurePath) : Prop :=
  (root p = "" \/ root p = "/" \/ root p = "//")
  /\ Forall (fun x => good_part x = true) (tail p).

(** ** Vocabulary for the batch *)

(** How one item of a batch ended: converted to [out]; failed in
    [convert_to_m4a], with the diagnostic it returned (the tool's error
    stream, or the message of the exception the launch raised); or stopped
    by an exception while its temporary file was written. *)
Inductive ItemResult :=
| Converted (out : string)
| ToolFailed (diagnostic : string)
| Crashed (message : string).


(** The binary64 quotient the loop passes to the progress bar. *)
Definition quotient (k n : nat) : spec_float :=
  SFdiv 53 1024 (float_of_int (Z.of_nat k)) (float_of_int (Z.of_nat n)).

Definition status_line (f : UploadedFile) (k n : nat) : string :=
  "変換中: " +:+ name f +:+ " (" +:+ PyStr.of_nat k +:+ "/" +:+ PyStr.of_nat n +:+ ")".

Definition error_line (f : UploadedFile) (r : ItemResult) : option string :=
  match r with
  | Converted _ => None
  | ToolFailed d => Some ("❌ " +:+ name f +:+ ": " +:+ d)
  | Crashed m => Some ("❌ " +:+ name f +:+ ": " +:+ m)
  end.

(** The per-item event shown as soon as the item is done. *)
Definition outcome_event (f : UploadedFile) (r : ItemResult) : UIEvent :=
  match r with
  | Converted out =>
      st_success ("✅ " +:+ name f +:+ " → " +:+ path_name (Path out))
  | ToolFailed _ => st_error ("❌ " +:+ name f +:+ " の変換に失敗しました")
  | Crashed m => st_error ("❌ " +:+ name f +:+ ": " +:+ m)
  end.

(** The three events of the item at index [i] of [n]. *)
Definition item_events (n i : nat) (f : UploadedFile) (r : ItemResult)
    : list UIEvent :=
  [ st_progress (PFloat (quotient (i + 1) n));
    st_status_text (status_line f (i + 1) n);
    outcome_event f r ].

Fixpoint batch_events (n i : nat) (items : list UploadedFile)
    (rs : list ItemResult) : list UIEvent :=
  match items, rs with
  | f :: items', r :: rs' => item_events n i f r ++ batch_events n (S i) items' rs'
  | _, _ => []
  end.

Fixpoint outputs (rs : list ItemResult) : list string :=
  match rs with
  | [] => []
  | Converted out :: rs' => out :: outputs rs'
  | _ :: rs' => outputs rs'
  end.

Fixpoint error_lines (items : list UploadedFile) (rs : list ItemResult)
    : list string :=
  match items, rs with
  | f :: items', r :: rs' =>
      match error_line f r with
      | Some e => e :: error_lines items' rs'
      | None => error_lines items' rs'
      end
  | _, _ => []
  end.

(** What one iteration does to the file system, which commands it launches
    and how the item ends, as a function of the environment. *)
Definition item_outcome (env : Env) (temp_input_dir temp_output_dir : PurePath)
    (quality ffmpeg_path : string) (f : UploadedFile) (f0 : FS)
    : ItemResult * FS * list (list string) :=
  let input := path_str (truediv temp_input_dir (name f)) in
  if bool_decide (input ∈ dirs f0) then
    (Crashed ("[Errno 21] Is a directory: '" +:+ input +:+ "'"), f0, [])
  else
    match open_wb_error env input f0 with
    | Some e => (Crashed (exn_msg e), f0, [])
    | None =>
        let f1 := mkFS (<[input := data f]> (files f0)) (dirs f0) in
        let cmd := ffmpeg_cmd input (path_str temp_output_dir) quality ffmpeg_path in
        let '(o, f2) := spawn env cmd f1 in
        (match o with
         | Exited rc _ err =>
             if rc =? 0
             then Converted (path_str (output_path_for input (path_str temp_output_dir)))
             else ToolFailed err
         | RunRaised e => ToolFailed (exn_msg e)
         end, f2, [cmd])
    end.

Fixpoint batch_outcome (env : Env) (temp_input_dir temp_output_dir : PurePath)
    (quality ffmpeg_path : string) (items : list UploadedFile) (f0 : FS)
    : list ItemResult * FS * list (list string) :=
  match items with
  | [] => ([], f0, [])
  | f :: rest =>
      let '(r, f1, c1) :=
        item_outcome env temp_input_dir temp_output_dir quality ffmpeg_path f f0 in
      let '(rs, f2, c2) :=
        batch_outcome env temp_input_dir temp_output_dir quality ffmpeg_path rest f1 in
      (r :: rs, f2, c1 ++ c2)
  end.

(** The aggregate report after the loop. *)
Definition report_events (n_ok n_failed : nat) : list UIEvent :=
  [ st_status_text "変換完了!";
    st_header "📊 変換結果";
    st_columns 2;
    st_metric "成功" n_ok;
    st_metric "失敗" n_failed ].

Definition error_events (errs : list string) : list UIEvent :=
  match errs with
  | [] => []
  | _ :: _ => st_subheader "❌ エラーファイル" :: List.map st_write errs
  end.

(** The archive member [create_zip_file] writes for a path, if any. *)
Definition zip_member (env : Env) (f : FS) (p : string) : option ZipEntry :=
  match files f !! p with
  | Some b =>
      Some (mkZipEntry (zip_arcname (posixpath.basename p)) false (deflate env b))
  | None =>
      if bool_decide (p ∈ dirs f)
      then Some (mkZipEntry (zip_arcname (posixpath.basename p) +:+ "/") true [])
      else None
  end.

Definition zip_members (env : Env) (f : FS) (paths : list string) : list ZipEntry :=
  omap (zip_member env f) paths.

(** Nothing exists at or below the directory [mkdtemp] is about to return:
    the guarantee [tempfile] gives for a new temporary directory. *)
Definition tmp_fresh (env : Env) (f : FS) : Prop :=
  forall p, is_under (mkdtemp env f) p = true -> path_exists p f = false.

(** ** Reading the event log *)

Definition is_download (e : UIEvent) : option (Payload * string * string) :=
  match e with
  | st_download_button _ d file_name mime => Some (d, file_name, mime)
  | _ => None
  end.

(** The downloads offered, with file name and media type. *)
Definition downloads (evs : list UIEvent) : list (Payload * string * string) :=
  omap is_download evs.

Definition is_float_progress (e : UIEvent) : option spec_float :=
  match e with
  | st_progress (PFloat f) => Some f
  | _ => None
  end.

(** The values the loop passed to the progress bar. *)
Definition progress_values (evs : list UIEvent) : list spec_float :=
  omap is_float_progress evs.

(** The float [f] is the rational [k / n], with no rounding. *)
Definition exact_ratio (f : spec_float) (k n : nat) : bool :=
  match f with
  | S754_finite false m e =>
      if 0 <=? e then Z.pos m * 2 ^ e * Z.of_nat n =? Z.of_nat k
      else Z.pos m * Z.of_nat n =? Z.of_nat k * 2 ^ (- e)
  | S754_zero _ => (k =? 0)%nat
  | _ => false
  end.

(** The file system and the two directories in which the loop starts. *)
Definition batch_fs (temp_dir : string) (f : FS) : FS :=
  mkFS (files f)
       ({[ path_str (truediv (Path temp_dir) "output") ]}
        ∪ ({[ path_str (truediv (Path temp_dir) "input") ]}
           ∪ ({[ temp_dir ]} ∪ dirs f))).

(** How the items of a batch end. *)
Definition batch_results (env : Env) (items : list UploadedFile)
    (quality ffmpeg_path : string) (w : World) : list ItemResult :=
  let T := mkdtemp env (fs w) in
  (batch_outcome env (truediv (Path T) "input") (truediv (Path T) "output")
                 quality ffmpeg_path items (batch_fs T (fs w))).1.1.

(** ** The claims the code does not meet, as they are worded *)

(** "Success if and only if the tool exits with status zero and the output
    file is present on disk immediately afterwards." *)
Definition success_iff_exit0_and_output (env : Env)
    (input_file_path output_dir quality ffmpeg_path : string) (w : World) : Prop :=
  let r := convert_to_m4a env input_file_path output_dir quality ffmpeg_path w in
  let out := path_str (output_path_for input_file_path output_dir) in
  (exists p, r.1 = Ret (true, Some p, None))
  <-> ((exists so se, (spawn env (ffmpeg_cmd input_file_path output_dir quality
                                            ffmpeg_path) (fs w)).1 = Exited 0 so se)
       /\ is_Some (files (fs r.2) !! out)).

(** "One successful item yields a single-file download, two or more a ZIP
    archive of exactly their base names, none no download."  The successful
    items are those whose outputs the loop collected in [converted_files]. *)
Definition download_per_successes (env : Env) (items : list UploadedFile)
    (quality ffmpeg_path : string) (w : World) : Prop :=
  let T := mkdtemp env (fs w) in
  forall l w1,
    batch_report env items quality ffmpeg_path T (enter_tmp T w) = (Ret l, w1) ->
    let offered := downloads (ui (convert_files env items quality ffmpeg_path w).2) in
    match converted_files l with
    | [] => offered = downloads (ui w)
    | [p] =>
        exists b, offered
                  = downloads (ui w)
                    ++ [(FileBytes b, posixpath.basename p, "audio/mp4")]
    | ps =>
        exists entries,
          offered = downloads (ui w)
                    ++ [(ZipBytes entries, "converted_audio_files.zip",
                         "application/zip")]
          /\ List.map arcname entries = List.map posixpath.basename ps
    end.

(** "The progress value after the k-th of N items equals k/N exactly." *)
Definition progress_is_exact (env : Env) (items : list UploadedFile)
    (quality ffmpeg_path : string) (w : World) : Prop :=
  let vs := progress_values (ui (convert_files env items quality ffmpeg_path w).2) in
  forall k, (1 <= k <= List.length items)%nat ->
    exists f, vs !! (k - 1)%nat = Some f
              /\ exact_ratio f k (List.length items) = true.

(** ** Vocabulary for the tool locator *)

(** The first candidate whose version query exits with status zero, when no
    query raises anything [check_ffmpeg] does not catch. *)
Fixpoint first_working (env : Env) (paths : list string) (f : FS) : option string :=
  match paths with
  | [] => None
  | p :: rest =>
      match spawn env [p; "-version"] f with
      | (Exited rc _ _, f') =>
          if rc =? 0 then Some p else first_working env rest f'
      | (RunRaised _, f') => first_working env rest f'
      end
  end.

(** Every version query, until one succeeds, exits or raises
    [FileNotFoundError] or [CalledProcessError]. *)
Fixpoint queries_exit_or_not_found (env : Env) (paths : list string) (f : FS) : Prop :=
  match paths with
  | [] => True
  | p :: rest =>
      match spawn env [p; "-version"] f with
      | (Exited rc _ _, f') =>
          if rc =? 0 then True else queries_exit_or_not_found env rest f'
      | (RunRaised e, f') =>
          except_probe e = true /\ queries_exit_or_not_found env rest f'
      end
  end.

(** What [main] shows before it looks for the tool. *)
Definition page_top : list UIEvent :=
  [ st_set_page_config "音声ファイル変換アプリ" "🎵" "wide";
    st_title "🎵 音声ファイル変換アプリ";
    st_markdown "WAV、OGG、MP3ファイルをM4A形式に変換します";
    st_sidebar_header "変換設定";
    st_sidebar_selectbox "音質設定" ["128k"; "192k"; "256k"; "320k"] 1 ].

(** The blocking report when no tool was found. *)
Definition not_found_report : list UIEvent :=
  [ st_error "❌ FFmpegが見つかりません"; st_markdown install_guidance ].

Definition is_version_query (argv : list string) : bool :=
  match argv with
  | [_; flag] => String.eqb flag "-version"
  | _ => false
  end.

(** ** Environments to run the program in *)

Module Scenario.

Definition world0 : World :=
  mkWorld (mkFS ∅ ∅) [] (mkSession None None) [].

(** A stand-in for ffmpeg: the version query succeeds, a conversion
    copies the input file to the output path, overwriting it. *)
Definition copy_spawn (argv : list string) (f : FS) : ProcOutcome * FS :=
  if String.eqb (List.nth 1 argv "") "-version" then
    (Exited 0 "ffmpeg version 6.0" "", f)
  else
    match argv with
    | [_; _; input; _; _; _; _; _; _; _; output] =>
        match files f !! input with
        | Some b => (Exited 0 "" "", mkFS (<[output := b]> (files f)) (dirs f))
        | None => (Exited 1 "" (input +:+ ": No such file or directory"), f)
        end
    | _ => (Exited 1 "" "usage: ffmpeg [options]", f)
    end.

Definition copy_tool : Env :=
  mkEnv copy_spawn (fun _ _ => None) (fun _ => "/tmp/tmpk3") (fun b => b).

(** A tool that always exits with status zero and writes nothing. *)
Definition silent_tool : Env :=
  mkEnv (fun _ f => (Exited 0 "" "", f)) (fun _ _ => None)
        (fun _ => "/tmp/tmpk3") (fun b => b).

(** A tool that rejects files named [corrupt.*], and a disk on which
    [full.*] cannot be written. *)
Definition picky_spawn (argv : list string) (f : FS) : ProcOutcome * FS :=
  if String.eqb (path_stem (Path (List.nth 2 argv ""))) "corrupt" then
    (Exited 1 "" "Invalid data found when processing input", f)
  else copy_spawn argv f.

Definition picky_tool : Env :=
  mkEnv picky_spawn
        (fun p _ => if String.eqb (path_stem (Path p)) "full"
                    then Some (mkExn OSError "[Errno 28] No space left on device")
                    else None)
        (fun _ => "/tmp/tmpk3") (fun b => b).

(** Launching by what the file system holds: a directory cannot be
    executed, a missing file is not found, a file runs. *)
Definition exec_spawn (argv : list string) (f : FS) : ProcOutcome * FS :=
  let prog := List.nth 0 argv "" in
  if bool_decide (prog ∈ dirs f) then
    (RunRaised (mkExn PermissionError
                  ("[Errno 13] Permission denied: '" +:+ prog +:+ "'")), f)
  else if bool_decide (is_Some (files f !! prog)) then
    (Exited 0 "ffmpeg version 6.0" "", f)
  else
    (RunRaised (mkExn FileNotFoundError
                  ("[Errno 2] No such file or directory: '" +:+ prog +:+ "'")), f).

Definition unpacked_env : Env :=
  mkEnv exec_spawn (fun _ _ => None) (fun _ => "/tmp/tmpk3") (fun b => b).

(** ffmpeg unpacked next to the application: [../ffmpeg/bin/ffmpeg]. *)
Definition unpacked_world : World :=
  mkWorld (mkFS {[ "../ffmpeg/bin/ffmpeg" := [] ]}
                {[ "../ffmpeg"; "../ffmpeg/bin" ]})
          [] (mkSession None None) [].

Definition riff : list byte := String.list_byte_of_string "RIFF".
Definition oggs : list byte := String.list_byte_of_string "OggS".
Definition id3 : list byte := String.list_byte_of_string "ID3".

Definition mixed_batch : list UploadedFile :=
  [ mkUpload "song.wav" riff;
    mkUpload "corrupt.mp3" id3;
    mkUpload "full.ogg" oggs;
    mkUpload "b.ogg" oggs ].

Definition three_files : list UploadedFile :=
  [ mkUpload "a.wav" riff; mkUpload "b.ogg" oggs; mkUpload "c.mp3" id3 ].

Definition two_files : list UploadedFile :=
  [ mkUpload "a.wav" riff; mkUpload "b.ogg" oggs ].

(** The lists and the world once [three_files] went through [copy_tool]
    and the results were reported. *)
Definition three_files_lists : Lists :=
  mkLists [ "/tmp/tmpk3/output/a.m4a"; "/tmp/tmpk3/output/b.m4a";
            "/tmp/tmpk3/output/c.m4a" ] [].

Definition three_files_reported : World :=
  (batch_report copy_tool three_files "192k" "ffmpeg" "/tmp/tmpk3"
                (enter_tmp "/tmp/tmpk3" world0)).2.

(** Two uploads whose names differ in the extension only. *)
Definition song_wav : UploadedFile := mkUpload "song.wav" riff.
Definition song_mp3 : UploadedFile := mkUpload "song.mp3" id3.
Definition same_stem : list UploadedFile := [song_wav; song_mp3].

(** The disk after [song.wav] was converted in [/tmp/tmpk3]. *)
Definition after_song_wav : World :=
  mkWorld (mkFS {[ "/tmp/tmpk3/input/song.wav" := riff;
                   "/tmp/tmpk3/output/song.m4a" := riff ]}
                {[ "/tmp/tmpk3"; "/tmp/tmpk3/input"; "/tmp/tmpk3/output" ]})
          [] (mkSession None None) [].

(** Two converted files and a path that is gone. *)
Definition packed_world : World :=
  mkWorld (mkFS {[ "/a/x.m4a" := riff; "/a/y.m4a" := oggs ]} {[ "/a" ]})
          [] (mkSession None None) [].
Definition packed_paths : list string :=
  ["/a/x.m4a"; "/a/gone.m4a"; "/a/y.m4a"].

End Scenario.

(** ** Vocabulary for the further properties *)

(** The version queries of a list of candidates, in order. *)
Definition version_queries (paths : list string) : list (list string) :=
  List.map (fun p => [p; "-version"]) paths.

(** The world in which [main] calls [check_ffmpeg] on the first run of the
    page: the top of the page and the spinner are shown, the two session
    keys are initialised. *)
Definition probe_world (w : World) : World :=
  mkWorld (fs w) (ui w ++ page_top ++ [st_spinner "FFmpegを確認中..."])
          (mkSession (Some false) (Some None)) (launched w).

(** The keys of [quality_options]. *)
Definition presets : list string := ["128k"; "192k"; "256k"; "320k"].

(** Where [convert_files] copies an upload to, where its conversion goes,
    and the command that converts it, in the temporary directory [T]. *)
Definition input_copy (T : string) (f : UploadedFile) : string :=
  path_str (truediv (truediv (Path T) "input") (name f)).

Definition output_of (T : string) (f : UploadedFile) : string :=
  path_str (output_path_for (input_copy T f) (path_str (truediv (Path T) "output"))).

Definition conversion_of (T quality ffmpeg_path : string) (f : UploadedFile)
    : list string :=
  ffmpeg_cmd (input_copy T f) (path_str (truediv (Path T) "output"))
             quality ffmpeg_path.


(** An upload whose name is an absolute path. *)
Definition absolute_upload : UploadedFile :=
  mkUpload "/var/tmp/evil.wav" (String.list_byte_of_string "RIFF").

(** The lines [st.write] printed. *)
Definition is_written (e : UIEvent) : option string :=
  match e with
  | st_write body => Some body
  | _ => None
  end.

Definition written_lines (evs : list UIEvent) : list string := omap is_written evs.

(** The events of the download section: its header and the button. *)
Definition in_download_section (e : UIEvent) : bool :=
  match e with
  | st_header body => String.eqb body "📥 ダウンロード"
  | st_download_button _ _ _ _ => true
  | _ => false
  end.

(** ffmpeg installed as the file [../ffmpeg], and no ffmpeg at all; both
    are launched by [Scenario.exec_spawn]. *)
Definition sibling_world : World :=
  mkWorld (mkFS {[ "../ffmpeg" := [] ]} ∅) [] (mkSession None None) [].

Definition bare_world : World :=
  mkWorld (mkFS ∅ ∅) [] (mkSession None None) [].

(** The bitrate [main] hands on: what the select box returns. *)
Definition quality_of (inp : UserInput) : string :=
  selectbox_value presets 1 (quality_choice inp).

(** [main] from [if not st.session_state.ffmpeg_path:] on, with the value
    read from the session. *)
Definition after_location (env : Env) (inp : UserInput) (located : option string)
    : M unit :=
  if negb (truthy located) then
    st (st_error "❌ FFmpegが見つかりません") ;;;
    st (st_markdown install_guidance)
  else
    st (st_success ("✅ FFmpegが見つかりました: " +:+ fmt_opt located)) ;;;
    st (st_header "📁 ファイルアップロード") ;;;
    st (st_file_uploader "音声ファイルを選択してください" ["wav"; "ogg"; "mp3"]) ;;;
    let uploaded_files := uploads inp in
    match uploaded_files with
    | [] => ret tt
    | _ :: _ =>
        st (st_success ("📂 " +:+ PyStr.of_nat (List.length uploaded_files)
                        +:+ " ファイルが選択されました")) ;;;
        list_uploads 0 uploaded_files ;;;
        st (st_button "🚀 変換開始") ;;;
        if convert_clicked inp
        then convert_files env uploaded_files (quality_of inp) (fmt_opt located)
        else ret tt
    end.

(** A later run of the page: the session holds [ffmpeg] as the tool. *)
Definition returning_world : World :=
  mkWorld (mkFS ∅ ∅) [] (mkSession (Some true) (Some (Some "ffmpeg"))) [].

(** The user picked the last bitrate, uploaded three files and clicked. *)
Definition eager_input : UserInput :=
  mkInput (Some 3%nat) Scenario.three_files true.

(** The user uploaded three files and did not click. *)
Definition idle_input : UserInput :=
  mkInput None Scenario.three_files false.

(** The diagnostic [convert_to_m4a] returns for a launch that did not exit
    with status zero. *)
Definition diagnostic_of (o : ProcOutcome) : string :=
  match o with
  | Exited _ _ se => se
  | RunRaised e => exn_msg e
  end.

(** The file system when the loop of a batch is through. *)
Definition batch_disk (env : Env) (items : list UploadedFile)
    (quality ffmpeg_path : string) (w : World) : FS :=
  let T := mkdtemp env (fs w) in
  (batch_outcome env (truediv (Path T) "input") (truediv (Path T) "output")
                 quality ffmpeg_path items (batch_fs T (fs w))).1.2.

(** * Properties *)

(** ** Strings and paths *)

Section PathFacts.

Local Abbreviation sep := posixpath.sep.

Lemma split_nonempty c s : PyStr.split c s <> [].
Proof.
  destruct s as [|a s]; simpl; [discriminate|].
  destruct (Ascii.eqb a c); [discriminate|].
  destruct (PyStr.split c s); discriminate.
Qed.

Lemma split_no_sep c s : PyStr.contains c s = false -> PyStr.split c s = [s].
Proof.
  induction s as [|a s IH]; simpl; [reflexivity|].
  intros H. apply orb_false_iff in H as [Ha Hs].
  rewrite Ha, (IH Hs). reflexivity.
Qed.

Lemma split_parts_no_sep c s :
  Forall (fun x => PyStr.contains c x = false) (PyStr.split c s).
Proof.
  induction s as [|a s IH]; simpl.
  - repeat constructor.
  - destruct (Ascii.eqb a c) eqn:E.
    + constructor; [reflexivity | exact IH].
    + destruct (PyStr.split c s) as [|hd tl].
      * repeat constructor. simpl. rewrite E. reflexivity.
      * inversion IH; subst. constructor; [|assumption].
        simpl. rewrite E. assumption.
Qed.

Lemma split_app_sep c x s :
  PyStr.contains c x = false ->
  PyStr.split c (x +:+ String c s) = x :: PyStr.split c s.
Proof.
  induction x as [|a x IH]; simpl; intros H.
  - rewrite Ascii.eqb_refl. reflexivity.
  - apply orb_false_iff in H as [Ha Hx].
    rewrite Ha, (IH Hx). reflexivity.
Qed.

Lemma split_join (l : list string) :
  l <> [] ->
  Forall (fun x => PyStr.contains sep x = false) l ->
  PyStr.split sep (PyStr.join "/" l) = l.
Proof.
  induction l as [|x l IH]; [congruence|].
  intros _ Hall. inversion Hall as [|? ? Hx Hl]; subst.
  destruct l as [|y l].
  - simpl. apply split_no_sep. assumption.
  - change (PyStr.join "/" (x :: y :: l))
      with (x +:+ String sep (PyStr.join "/" (y :: l))).
    rewrite split_app_sep by assumption.
    f_equal. apply IH; [discriminate | assumption].
Qed.

Lemma good_part_keep x : good_part x = true -> keep_part x = true.
Proof. unfold good_part. intros H. apply andb_true_iff in H. tauto. Qed.

Lemma good_part_no_sep x : good_part x = true -> PyStr.contains sep x = false.
Proof.
  unfold good_part. intros H. apply andb_true_iff in H as [_ H].
  apply negb_true_iff in H. exact H.
Qed.

Lemma filter_keep_good (l : list string) :
  Forall (fun x => good_part x = true) l -> List.filter keep_part l = l.
Proof.
  induction 1 as [|x l Hx _ IH]; simpl; [reflexivity|].
  rewrite (good_part_keep x Hx), IH. reflexivity.
Qed.

Lemma filter_split_good s :
  Forall (fun x => good_part x = true)
         (List.filter keep_part (PyStr.split sep s)).
Proof.
  pose proof (split_parts_no_sep sep s) as H.
  induction H as [|x l Hx _ IH]; simpl; [constructor|].
  destruct (keep_part x) eqn:E; [|exact IH].
  constructor; [|exact IH].
  unfold good_part. rewrite E, Hx. reflexivity.
Qed.

Lemma splitroot_root p :
  let r := (posixpath.splitroot p).1 in r = "" \/ r = "/" \/ r = "//".
Proof.
  destruct p as [|a p]; simpl; [tauto|].
  destruct a as [[] [] [] [] [] [] [] []]; simpl; try tauto.
  destruct p as [|b p]; simpl; [tauto|].
  destruct b as [[] [] [] [] [] [] [] []]; simpl; try tauto.
  destruct p as [|c p]; simpl; [tauto|].
  destruct c as [[] [] [] [] [] [] [] []]; simpl; tauto.
Qed.

Lemma parse_path_wf s : wf_path (parse_path s).
Proof.
  unfold parse_path. destruct (PyStr.is_empty s).
  - split; [left; reflexivity | constructor].
  - pose proof (splitroot_root s) as Hr.
    destruct (posixpath.splitroot s) as [r rel]. split.
    + exact Hr.
    + apply filter_split_good.
Qed.

Lemma truediv_wf p key : wf_path p -> wf_path (truediv p key).
Proof.
  intros [Hr Ht]. unfold truediv.
  pose proof (parse_path_wf key) as [Hkr Hkt].
  destruct (negb (PyStr.is_empty (root (parse_path key)))).
  - split; assumption.
  - split; [exact Hr | apply Forall_app; split; assumption].
Qed.

Lemma contains_app c (a b : string) :
  PyStr.contains c (a +:+ b) = PyStr.contains c a || PyStr.contains c b.
Proof.
  induction a as [|x a IH]; simpl; [reflexivity|].
  rewrite IH, orb_assoc. reflexivity.
Qed.

Lemma str_length_app (a b : string) :
  String.length (a +:+ b) = (String.length a + String.length b)%nat.
Proof. induction a as [|x a IH]; simpl; [reflexivity | rewrite IH; reflexivity]. Qed.

Lemma contains_substring c n m s :
  PyStr.contains c s = false -> PyStr.contains c (String.substring n m s) = false.
Proof.
  revert n m. induction s as [|a s IH]; intros n m H.
  - destruct n, m; reflexivity.
  - simpl in H. apply orb_false_iff in H as [Ha Hs].
    destruct n as [|n]; simpl.
    + destruct m as [|m]; simpl; [reflexivity|].
      rewrite Ha. apply IH. assumption.
    + apply IH. assumption.
Qed.

Lemma good_part_head x :
  good_part x = true -> exists a x', x = String a x' /\ a <> sep.
Proof.
  intros H. pose proof (good_part_no_sep x H) as Hns.
  destruct x as [|a x'].
  - discriminate H.
  - exists a, x'. split; [reflexivity|].
    simpl in Hns. apply orb_false_iff in Hns as [Ha _].
    intros ->. rewrite Ascii.eqb_refl in Ha. discriminate.
Qed.

Lemma splitroot_relative a x : a <> sep -> posixpath.splitroot (String a x) = ("", String a x).
Proof.
  intros Ha. unfold posixpath.splitroot.
  destruct a as [[] [] [] [] [] [] [] []]; try reflexivity.
  exfalso. apply Ha. reflexivity.
Qed.

(** A single good component parses to itself. *)
Lemma parse_path_good x : good_part x = true -> parse_path x = mkPath "" [x].
Proof.
  intros H. destruct (good_part_head x H) as (a & x' & -> & Ha).
  unfold parse_path. simpl PyStr.is_empty. cbv iota.
  rewrite (splitroot_relative a x' Ha).
  rewrite (split_no_sep _ _ (good_part_no_sep _ H)).
  simpl. rewrite (good_part_keep _ H). reflexivity.
Qed.

Lemma truediv_good p x :
  good_part x = true -> truediv p x = mkPath (root p) (tail p ++ [x]).
Proof. intros H. unfold truediv. rewrite (parse_path_good x H). reflexivity. Qed.

Lemma path_name_snoc r t x : path_name (mkPath r (t ++ [x])) = x.
Proof. unfold path_name. simpl. apply last_last. Qed.

Lemma path_name_no_sep p : wf_path p -> PyStr.contains sep (path_name p) = false.
Proof.
  intros [_ Ht]. unfold path_name.
  destruct (tail p) as [|y t] using rev_ind; [reflexivity|].
  rewrite last_last. apply Forall_app in Ht as [_ Hy].
  inversion Hy; subst. apply good_part_no_sep. assumption.
Qed.

Lemma path_stem_no_sep p : wf_path p -> PyStr.contains sep (path_stem p) = false.
Proof.
  intros Hwf. pose proof (path_name_no_sep p Hwf) as Hn.
  unfold path_stem. destruct (PyStr.rfind "." (path_name p)); [|exact Hn].
  destruct (_ && _); [|exact Hn].
  apply contains_substring. exact Hn.
Qed.

(** The file name the converter derives is always a single component. *)
Lemma m4a_name_good stem :
  PyStr.contains sep stem = false -> good_part (stem +:+ ".m4a") = true.
Proof.
  intros Hs. unfold good_part, keep_part.
  rewrite contains_app, Hs. simpl.
  assert (Hlen : String.length (stem +:+ ".m4a") = (String.length stem + 4)%nat)
    by apply str_length_app.
  destruct (stem +:+ ".m4a") as [|a [|b r]] eqn:E; simpl in Hlen; try lia.
  simpl. destruct (Ascii.eqb a "."); reflexivity.
Qed.

Lemma app_cons_str a (s t : string) : String a s +:+ t = String a (s +:+ t).
Proof. reflexivity. Qed.

Lemma app_nil_str (t : string) : "" +:+ t = t.
Proof. reflexivity. Qed.

Lemma app_assoc_str (a b c : string) : (a +:+ b) +:+ c = a +:+ (b +:+ c).
Proof.
  induction a as [|x a IH]; [reflexivity|].
  rewrite !app_cons_str. f_equal. exact IH.
Qed.

Lemma join_snoc (t : list string) x :
  t <> [] -> PyStr.join "/" (t ++ [x]) = PyStr.join "/" t +:+ "/" +:+ x.
Proof.
  induction t as [|y t IH]; [congruence|]. intros _.
  destruct t as [|z t]; [reflexivity|].
  change (PyStr.join "/" ((y :: z :: t) ++ [x]))
    with (y +:+ "/" +:+ PyStr.join "/" ((z :: t) ++ [x])).
  rewrite IH by discriminate.
  change (PyStr.join "/" (y :: z :: t)) with (y +:+ "/" +:+ PyStr.join "/" (z :: t)).
  rewrite !app_assoc_str. reflexivity.
Qed.

Lemma join_head x (t : list string) :
  good_part x = true ->
  exists a rest, PyStr.join "/" (x :: t) = String a rest /\ a <> sep.
Proof.
  intros H. destruct (good_part_head x H) as (a & x' & -> & Ha).
  destruct t as [|y t]; simpl; eauto.
Qed.

Lemma splitroot_one a x :
  a <> sep -> posixpath.splitroot (String "/" (String a x)) = ("/", String a x).
Proof.
  intros Ha. unfold posixpath.splitroot.
  destruct a as [[] [] [] [] [] [] [] []]; try reflexivity.
  exfalso. apply Ha. reflexivity.
Qed.

Lemma splitroot_two a x :
  a <> sep ->
  posixpath.splitroot (String "/" (String "/" (String a x))) = ("//", String a x).
Proof.
  intros Ha. unfold posixpath.splitroot.
  destruct a as [[] [] [] [] [] [] [] []]; try reflexivity.
  exfalso. apply Ha. reflexivity.
Qed.

(** [Path(str(p)) == p] *)
Lemma parse_path_str p : wf_path p -> parse_path (path_str p) = p.
Proof.
  destruct p as [r t]. intros [Hr Ht]. simpl in Hr, Ht.
  assert (Hsplit : t <> [] ->
            List.filter keep_part (PyStr.split sep (PyStr.join "/" t)) = t).
  { intros Hne. rewrite split_join; [apply filter_keep_good; exact Ht | exact Hne |].
    eapply Forall_impl; [exact Ht|]. intros x. apply good_part_no_sep. }
  destruct t as [|x t].
  - destruct Hr as [-> | [-> | ->]]; reflexivity.
  - inversion Ht as [|? ? Hx _]; subst.
    destruct (join_head x t Hx) as (a & rest & Hj & Ha).
    specialize (Hsplit ltac:(discriminate)).
    destruct Hr as [-> | [-> | ->]]; unfold path_str, parse_path;
      cbn [root tail PyStr.is_empty negb]; rewrite Hj in *;
      rewrite ?app_cons_str, ?app_nil_str.
    + cbn [PyStr.is_empty]. rewrite (splitroot_relative a rest Ha), Hsplit. reflexivity.
    + cbn [PyStr.is_empty]. rewrite (splitroot_one a rest Ha), Hsplit. reflexivity.
    + cbn [PyStr.is_empty]. rewrite (splitroot_two a rest Ha), Hsplit. reflexivity.
Qed.

Lemma path_str_inj p q : wf_path p -> wf_path q -> path_str p = path_str q -> p = q.
Proof.
  intros Hp Hq E. rewrite <- (parse_path_str p Hp), <- (parse_path_str q Hq), E.
  reflexivity.
Qed.

(** Appending a component appends ["/" + component] to the string, unless
    the path had no component yet. *)
Lemma path_str_snoc r (t : list string) x :
  t <> [] ->
  path_str (mkPath r (t ++ [x])) = path_str (mkPath r t) +:+ "/" +:+ x.
Proof.
  intros Hne. unfold path_str. cbn [root tail].
  rewrite (join_snoc t x Hne).
  destruct (negb (PyStr.is_empty r)).
  - rewrite app_assoc_str. reflexivity.
  - destruct t as [|y t]; [congruence|].
    destruct ((y :: t) ++ [x]) eqn:E; [destruct t; discriminate|]. reflexivity.
Qed.

Lemma rfind_none c x : PyStr.contains c x = false -> PyStr.rfind c x = None.
Proof.
  induction x as [|a x IH]; simpl; [reflexivity|].
  intros H. apply orb_false_iff in H as [Ha Hx].
  rewrite (IH Hx), Ha. reflexivity.
Qed.

Lemma rfind_app_sep c pre x :
  PyStr.contains c x = false ->
  PyStr.rfind c (pre +:+ String c x) = Some (String.length pre).
Proof.
  intros Hx. induction pre as [|a pre IH]; simpl.
  - rewrite (rfind_none c x Hx), Ascii.eqb_refl. reflexivity.
  - rewrite IH. reflexivity.
Qed.

Lemma substring_all x : String.substring 0 (String.length x) x = x.
Proof. induction x as [|a x IH]; simpl; [reflexivity | rewrite IH; reflexivity]. Qed.

Lemma drop_app pre x : PyStr.drop (String.length pre) (pre +:+ x) = x.
Proof.
  unfold PyStr.drop. induction pre as [|a pre IH]; simpl.
  - rewrite Nat.sub_0_r. apply substring_all.
  - exact IH.
Qed.

Lemma basename_app_sep pre x :
  PyStr.contains sep x = false -> posixpath.basename (pre +:+ String sep x) = x.
Proof.
  intros Hx. unfold posixpath.basename. rewrite (rfind_app_sep sep pre x Hx).
  replace (S (String.length pre)) with (String.length (pre +:+ "/")).
  - change (String sep x) with ("/" +:+ x). rewrite <- app_assoc_str. apply drop_app.
  - rewrite str_length_app. simpl. lia.
Qed.

(** [os.path.basename(str(p))] is the last component of [p]. *)
Lemma basename_path_str_snoc r (t : list string) x :
  (r = "" \/ r = "/" \/ r = "//") ->
  good_part x = true ->
  posixpath.basename (path_str (mkPath r (t ++ [x]))) = x.
Proof.
  intros Hr Hx. pose proof (good_part_no_sep x Hx) as Hns.
  destruct t as [|y t].
  - destruct Hr as [-> | [-> | ->]]; unfold path_str; cbn.
    + unfold posixpath.basename. rewrite (rfind_none _ _ Hns). reflexivity.
    + apply (basename_app_sep "" x Hns).
    + apply (basename_app_sep "/" x Hns).
  - rewrite path_str_snoc by discriminate.
    apply (basename_app_sep _ x Hns).
Qed.

(** The last component of a path string, and what [stem] cuts from it. *)
Lemma split_last c d x :
  PyStr.contains c x = false ->
  exists h l, PyStr.split c (d +:+ String c x) = h :: l ++ [x].
Proof.
  intros Hx. induction d as [|a d (h & l & IH)].
  - exists "", []. rewrite app_nil_str. simpl. rewrite Ascii.eqb_refl.
    rewrite (split_no_sep c x Hx). reflexivity.
  - rewrite app_cons_str. simpl. rewrite IH. destruct (Ascii.eqb a c).
    + exists "", (h :: l). reflexivity.
    + exists (String a h), l. reflexivity.
Qed.

Lemma drop_one a s : PyStr.drop 1 (String a s) = s.
Proof. unfold PyStr.drop. simpl. rewrite Nat.sub_0_r. apply substring_all. Qed.

Lemma splitroot_three r :
  posixpath.splitroot (String "/" (String "/" (String "/" r)))
  = ("/", String "/" (String "/" r)).
Proof. unfold posixpath.splitroot. rewrite drop_one. reflexivity. Qed.

Lemma splitroot_keeps_last d x :
  good_part x = true ->
  let rel := (posixpath.splitroot (d +:+ String sep x)).2 in
  rel = x \/ exists d', rel = d' +:+ String sep x.
Proof.
  intros Hx. destruct (good_part_head x Hx) as (a & x' & -> & Ha). cbn zeta.
  unfold posixpath.sep.
  destruct d as [|b d].
  { rewrite app_nil_str, (splitroot_one a x' Ha). left. reflexivity. }
  rewrite app_cons_str. destruct (ascii_dec b "/") as [-> | Hb].
  2:{ rewrite (splitroot_relative b _ Hb). right. exists (String b d). reflexivity. }
  destruct d as [|c d].
  { rewrite app_nil_str, (splitroot_two a x' Ha). left. reflexivity. }
  rewrite app_cons_str. destruct (ascii_dec c "/") as [-> | Hc].
  2:{ rewrite (splitroot_one c _ Hc). right. exists (String c d). reflexivity. }
  destruct d as [|e d].
  { rewrite app_nil_str, splitroot_three. right. exists "/". reflexivity. }
  rewrite app_cons_str. destruct (ascii_dec e "/") as [-> | He].
  2:{ rewrite (splitroot_two e _ He). right. exists (String e d). reflexivity. }
  rewrite splitroot_three. right. exists (String "/" (String "/" d)). reflexivity.
Qed.

Lemma path_name_of_string pre x :
  good_part x = true ->
  pre = "" \/ (exists d, pre = d +:+ "/") ->
  path_name (Path (pre +:+ x)) = x.
Proof.
  intros Hx [-> | [d ->]].
  - rewrite app_nil_str. unfold Path. rewrite (parse_path_good x Hx). reflexivity.
  - rewrite app_assoc_str. change ("/" +:+ x) with (String sep x).
    pose proof (splitroot_keeps_last d x Hx) as Hrel. cbn zeta in Hrel.
    unfold Path, parse_path.
    destruct (d +:+ String sep x) as [|a s] eqn:Es.
    { destruct d; discriminate Es. }
    cbn [PyStr.is_empty].
    destruct (posixpath.splitroot (String a s)) as [r rel]. cbn [snd] in Hrel.
    unfold path_name. cbn [tail].
    destruct Hrel as [-> | [d' ->]].
    + rewrite (split_no_sep _ _ (good_part_no_sep _ Hx)). simpl.
      rewrite (good_part_keep _ Hx). reflexivity.
    + destruct (split_last sep d' x (good_part_no_sep _ Hx)) as (h & l & ->).
      change (h :: l ++ [x]) with ((h :: l) ++ [x]).
      rewrite List.filter_app. simpl List.filter at 2.
      rewrite (good_part_keep _ Hx). apply last_last.
Qed.

Lemma take_app_length (a b : string) : PyStr.take (String.length a) (a +:+ b) = a.
Proof.
  unfold PyStr.take. induction a as [|c a IH]; simpl.
  - destruct b; reflexivity.
  - rewrite IH. reflexivity.
Qed.

Lemma path_stem_cut p base ext :
  path_name p = base +:+ "." +:+ ext ->
  base <> "" -> ext <> "" -> PyStr.contains "." ext = false ->
  path_stem p = base.
Proof.
  intros Hn Hb He Hd. unfold path_stem. rewrite Hn.
  change ("." +:+ ext) with (String "." ext).
  rewrite (rfind_app_sep "." base ext Hd), str_length_app. simpl String.length.
  assert (H1 : (0 <? String.length base)%nat = true).
  { apply Nat.ltb_lt. destruct base; [congruence | simpl; lia]. }
  assert (H2 : (String.length base <? String.length base + S (String.length ext) - 1)%nat
               = true).
  { apply Nat.ltb_lt. destruct ext; [congruence | simpl; lia]. }
  rewrite H1, H2. apply take_app_length.
Qed.

Lemma path_stem_no_dot p :
  PyStr.contains "." (path_name p) = false -> path_stem p = path_name p.
Proof. intros H. unfold path_stem. rewrite (rfind_none _ _ H). reflexivity. Qed.

Lemma named_good_part x :
  x <> "" -> x <> "." -> PyStr.contains sep x = false -> good_part x = true.
Proof.
  intros Hne Hdot Hs. unfold good_part, keep_part. rewrite Hs.
  destruct x as [|a x]; [congruence|]. cbn [PyStr.is_empty negb andb].
  destruct (String.eqb (String a x) ".") eqn:E; [|reflexivity].
  apply String.eqb_eq in E. congruence.
Qed.

End PathFacts.

(** ** Running the monad *)

Section RunFacts.

Variable env : Env.

Lemma bind_ret {A B} (m : M A) (k : A -> M B) w a w' :
  m w = (Ret a, w') -> bind m k w = k a w'.
Proof. unfold bind. intros ->. reflexivity. Qed.

Lemma bind_raise {A B} (m : M A) (k : A -> M B) w e w' :
  m w = (Raise e, w') -> bind m k w = (Raise e, w').
Proof. unfold bind. intros ->. reflexivity. Qed.

(** [convert_to_m4a] as a function of what the launch does. *)
Lemma convert_to_m4a_run i o q f w :
  convert_to_m4a env i o q f w =
  let cmd := ffmpeg_cmd i o q f in
  (Ret match (spawn env cmd (fs w)).1 with
       | Exited rc _ err =>
           if rc =? 0 then (true, Some (path_str (output_path_for i o)), None)
           else (false, None, Some err)
       | RunRaised e => (false, None, Some (exn_msg e))
       end,
   mkWorld (spawn env cmd (fs w)).2 (ui w) (session w) (launched w ++ [cmd])).
Proof.
  unfold convert_to_m4a, try_except, subprocess_run, bind, get_fs, log_launch, put_fs.
  cbn. destruct (spawn env _ (fs w)) as [[rc out err|e] f']; cbn.
  - destruct (rc =? 0); reflexivity.
  - reflexivity.
Qed.

Lemma quotient_eq i n :
  SFdiv 53 1024 (float_of_int (Z.of_nat i + 1)) (float_of_int (Z.of_nat n))
  = quotient (i + 1) n.
Proof. unfold quotient. rewrite Nat2Z.inj_add. reflexivity. Qed.

(** One iteration: it never raises, and does what [item_outcome] says. *)
Lemma convert_one_run Tin Tout q ff n i f l w :
  n <> 0%nat ->
  convert_one env Tin Tout q ff n i f l w =
  let '(r, f', cmds) := item_outcome env Tin Tout q ff f (fs w) in
  (Ret (mkLists (converted_files l ++ outputs [r])
                (errors l ++ error_lines [f] [r])),
   mkWorld f' (ui w ++ item_events n i f r) (session w) (launched w ++ cmds)).
Proof.
  intros Hn. unfold convert_one, py_truediv.
  assert (Hz : (Z.of_nat n =? 0) = false) by (apply Z.eqb_neq; lia).
  rewrite Hz, quotient_eq.
  unfold item_outcome, item_events, status_line.
  unfold try_except, bind, ret, st, open_wb_write, get_fs, put_fs, raise. cbn.
  destruct (bool_decide _) eqn:Hdir; cbn.
  { rewrite !app_nil_r, <- !app_assoc. reflexivity. }
  destruct (open_wb_error env _ (fs w)) as [e|] eqn:Herr; cbn.
  { rewrite !app_nil_r, <- !app_assoc. reflexivity. }
  rewrite convert_to_m4a_run. cbn.
  destruct (spawn env _ _) as [[rc out err|e] f2]; cbn.
  - destruct (rc =? 0); cbn; rewrite ?app_nil_r, <- !app_assoc; reflexivity.
  - rewrite ?app_nil_r, <- !app_assoc. reflexivity.
Qed.

Lemma outputs_cons r rs : outputs (r :: rs) = outputs [r] ++ outputs rs.
Proof. destruct r; reflexivity. Qed.

Lemma error_lines_cons f items r rs :
  error_lines (f :: items) (r :: rs) = error_lines [f] [r] ++ error_lines items rs.
Proof. simpl. destruct (error_line f r); reflexivity. Qed.

(** The whole loop: it never raises, and does what [batch_outcome] says. *)
Lemma convert_each_run Tin Tout q ff n items :
  forall i l w,
  (items <> [] -> n <> 0%nat) ->
  convert_each env Tin Tout q ff n i items l w =
  let '(rs, f', cmds) := batch_outcome env Tin Tout q ff items (fs w) in
  (Ret (mkLists (converted_files l ++ outputs rs)
                (errors l ++ error_lines items rs)),
   mkWorld f' (ui w ++ batch_events n i items rs) (session w)
           (launched w ++ cmds)).
Proof.
  induction items as [|f items IH]; intros i l w Hn.
  - destruct l, w. cbn. rewrite !app_nil_r. reflexivity.
  - assert (Hn0 : n <> 0%nat) by (apply Hn; discriminate).
    cbn [convert_each batch_outcome].
    pose proof (convert_one_run Tin Tout q ff n i f l w Hn0) as H1.
    destruct (item_outcome env Tin Tout q ff f (fs w)) as [[r f1] c1].
    rewrite (bind_ret _ _ _ _ _ H1).
    rewrite IH by (intros _; exact Hn0). cbn [fs ui session launched converted_files errors].
    destruct (batch_outcome env Tin Tout q ff items f1) as [[rs f2] c2].
    rewrite (outputs_cons r rs), (error_lines_cons f items r rs).
    cbn [batch_events]. rewrite !app_assoc. reflexivity.
Qed.

Lemma batch_outcome_length Tin Tout q ff items :
  forall f0,
  List.length (batch_outcome env Tin Tout q ff items f0).1.1 = List.length items.
Proof.
  induction items as [|f items IH]; intros f0; [reflexivity|].
  cbn [batch_outcome].
  destruct (item_outcome env Tin Tout q ff f f0) as [[r f1] c1].
  specialize (IH f1).
  destruct (batch_outcome env Tin Tout q ff items f1) as [[rs f2] c2].
  cbn in *. rewrite IH. reflexivity.
Qed.

(** Every item lands in exactly one of the two lists. *)
Lemma outputs_errors_count items :
  forall rs, List.length rs = List.length items ->
  (List.length (outputs rs) + List.length (error_lines items rs))%nat
  = List.length items.
Proof.
  induction items as [|f items IH]; intros [|r rs] Hlen; try discriminate.
  - reflexivity.
  - injection Hlen as Hlen. specialize (IH rs Hlen).
    destruct r; cbn; lia.
Qed.

Lemma write_each_run errs w :
  write_each errs w
  = (Ret tt, mkWorld (fs w) (ui w ++ List.map st_write errs) (session w) (launched w)).
Proof.
  revert w. induction errs as [|e errs IH]; intros w.
  - destruct w. cbn. rewrite app_nil_r. reflexivity.
  - cbn [write_each]. unfold bind at 1. cbn. rewrite IH. cbn.
    rewrite <- app_assoc. reflexivity.
Qed.

Lemma show_errors_run errs w :
  show_errors errs w
  = (Ret tt, mkWorld (fs w) (ui w ++ error_events errs) (session w) (launched w)).
Proof.
  destruct errs as [|e errs].
  - destruct w. cbn. rewrite app_nil_r. reflexivity.
  - unfold show_errors. unfold bind at 1. cbn. rewrite write_each_run. cbn.
    rewrite <- !app_assoc. reflexivity.
Qed.

(** The archive loop never raises and leaves the world as it was. *)
Lemma zip_each_run paths :
  forall z w, zip_each env paths z w = (Ret (z ++ zip_members env (fs w) paths), w).
Proof.
  induction paths as [|p paths IH]; intros z w.
  - cbn. rewrite app_nil_r. reflexivity.
  - cbn [zip_each]. unfold bind at 1, os_path_exists, get_fs, bind, ret. cbn.
    unfold zip_members. cbn [omap]. fold (zip_members env (fs w) paths).
    unfold path_exists, zip_member, ZipFile_write, bind, get_fs.
    destruct (files (fs w) !! p) as [b|] eqn:Hf; cbn; rewrite ?Hf; cbn.
    + rewrite IH, <- app_assoc. reflexivity.
    + destruct (bool_decide (p ∈ dirs (fs w))) eqn:Hd; cbn.
      * rewrite Hf, Hd. cbn. rewrite IH, <- app_assoc. reflexivity.
      * apply IH.
Qed.

Lemma create_zip_file_run paths zn w :
  create_zip_file env paths zn w = (Ret (zip_members env (fs w) paths), w).
Proof. unfold create_zip_file. rewrite zip_each_run. reflexivity. Qed.

(** The body of the [with] block up to the report: the two [mkdir] may
    find their directory taken; otherwise the loop and the report run to
    their end. *)
Lemma batch_report_run items q ff T w :
  let Tin := truediv (Path T) "input" in
  let Tout := truediv (Path T) "output" in
  let fA := mkFS (files (fs w)) ({[ path_str Tin ]} ∪ dirs (fs w)) in
  let f0 := mkFS (files (fs w))
                 ({[ path_str Tout ]} ∪ ({[ path_str Tin ]} ∪ dirs (fs w))) in
  batch_report env items q ff T w =
  if path_exists (path_str Tin) (fs w) then
    (Raise (mkExn FileExistsError
              ("[Errno 17] File exists: '" +:+ path_str Tin +:+ "'")), w)
  else if path_exists (path_str Tout) fA then
    (Raise (mkExn FileExistsError
              ("[Errno 17] File exists: '" +:+ path_str Tout +:+ "'")),
     mkWorld fA (ui w) (session w) (launched w))
  else
    let '(rs, f1, cmds) := batch_outcome env Tin Tout q ff items f0 in
    (Ret (mkLists (outputs rs) (error_lines items rs)),
     mkWorld f1
       (ui w ++ [st_progress (PInt 0); st_empty]
             ++ batch_events (List.length items) 0 items rs
             ++ report_events (List.length (outputs rs))
                              (List.length (error_lines items rs))
             ++ error_events (error_lines items rs))
       (session w) (launched w ++ cmds)).
Proof.
  intros Tin Tout fA f0. unfold batch_report.
  fold Tin. fold Tout.
  unfold mkdir at 1. unfold bind at 1. unfold bind at 1. unfold get_fs at 1.
  destruct (path_exists (path_str Tin) (fs w)) eqn:E1.
  { destruct w; reflexivity. }
  unfold put_fs at 1. cbn [fs ui session launched files dirs].
  unfold mkdir at 1. unfold bind at 1. unfold bind at 1. unfold get_fs at 1.
  cbn [fs ui session launched files dirs]. fold fA.
  destruct (path_exists (path_str Tout) fA) eqn:E2.
  { reflexivity. }
  unfold put_fs at 1. cbn [fs ui session launched files dirs]. fold f0.
  unfold bind at 1. unfold st at 1. cbn [fs ui session launched].
  unfold bind at 1. unfold st at 1. cbn [fs ui session launched].
  unfold bind at 1.
  rewrite convert_each_run
    by (intros Hne; destruct items; [congruence | discriminate]).
  cbn [fs ui session launched converted_files errors app].
  destruct (batch_outcome env Tin Tout q ff items f0) as [[rs f1] cmds].
  unfold bind, st. cbn [fs ui session launched converted_files errors].
  rewrite show_errors_run. cbn [fs ui session launched]. unfold ret.
  unfold report_events. rewrite <- !app_assoc. reflexivity.
Qed.

(** The download section. *)
Lemma offer_download_run converted w :
  offer_download env converted w =
  match converted with
  | [] => (Ret tt, w)
  | [p] =>
      let w1 := mkWorld (fs w) (ui w ++ [st_header "📥 ダウンロード"])
                        (session w) (launched w) in
      match open_rb_read p w1 with
      | (Ret b, _) =>
          (Ret tt,
           mkWorld (fs w)
             (ui w ++ [st_header "📥 ダウンロード";
                       st_download_button "📁 変換ファイルをダウンロード"
                         (FileBytes b) (posixpath.basename p) "audio/mp4"])
             (session w) (launched w))
      | (Raise e, _) => (Raise e, w1)
      end
  | _ :: _ :: _ =>
      (Ret tt,
       mkWorld (fs w)
         (ui w ++ [st_header "📥 ダウンロード";
                   st_download_button
                     ("📦 全ファイルをZIPでダウンロード ("
                      +:+ PyStr.of_nat (List.length converted) +:+ " ファイル)")
                     (ZipBytes (zip_members env (fs w) converted))
                     "converted_audio_files.zip" "application/zip"])
         (session w) (launched w))
  end.
Proof.
  destruct converted as [|p [|p2 rest]].
  - reflexivity.
  - unfold offer_download, open_rb_read, bind, st, get_fs, ret, raise. cbn.
    destruct (files (fs w) !! p); cbn.
    + rewrite <- app_assoc. reflexivity.
    + destruct (bool_decide _); reflexivity.
  - unfold offer_download. cbn [List.length Nat.eqb].
    unfold bind at 1. unfold st at 1. unfold bind at 1.
    rewrite create_zip_file_run. unfold st. cbn.
    rewrite <- app_assoc. reflexivity.
Qed.

(** *** The temporary directory *)

Lemma is_prefix_app (t x : list string) : is_prefix t (t ++ x) = true.
Proof.
  induction t as [|a t IH]; [reflexivity|].
  cbn. rewrite String.eqb_refl. exact IH.
Qed.

Lemma Path_child T x :
  good_part x = true ->
  Path (path_str (truediv (Path T) x))
  = mkPath (root (Path T)) (tail (Path T) ++ [x]).
Proof.
  intros Hx. unfold Path at 1.
  rewrite parse_path_str by (apply truediv_wf, parse_path_wf).
  apply truediv_good. exact Hx.
Qed.

Lemma skipn_app_length (t x : list string) : List.skipn (List.length t) (t ++ x) = x.
Proof. induction t as [|a t IH]; [reflexivity | exact IH]. Qed.

Lemma is_under_ext T p ext :
  Path p = mkPath (root (Path T)) (tail (Path T) ++ ext) ->
  no_dotdot ext = true ->
  is_under T p = true.
Proof.
  intros Hp Hext. unfold is_under. rewrite Hp. cbn [root tail].
  rewrite String.eqb_refl, is_prefix_app, skipn_app_length, Hext. reflexivity.
Qed.

Lemma is_under_child T x :
  good_part x = true -> String.eqb x ".." = false ->
  is_under T (path_str (truediv (Path T) x)) = true.
Proof.
  intros Hx Hdd. apply (is_under_ext T _ [x]); [apply Path_child; exact Hx|].
  cbn. rewrite Hdd. reflexivity.
Qed.

Lemma child_ne_parent T x :
  good_part x = true -> path_str (truediv (Path T) x) <> T.
Proof.
  intros Hx E. pose proof (Path_child T x Hx) as H. rewrite E in H.
  apply (f_equal tail) in H. cbn [tail] in H.
  apply (f_equal (@List.length string)) in H.
  rewrite length_app in H. cbn in H. lia.
Qed.

Lemma children_differ T x y :
  good_part x = true -> good_part y = true -> x <> y ->
  path_str (truediv (Path T) x) <> path_str (truediv (Path T) y).
Proof.
  intros Hx Hy Hne E.
  pose proof (Path_child T x Hx) as H1. rewrite E, (Path_child T y Hy) in H1.
  injection H1 as H1. apply app_inv_head in H1. congruence.
Qed.

Lemma path_exists_false p f :
  path_exists p f = false <-> files f !! p = None /\ p ∉ dirs f.
Proof.
  unfold path_exists. rewrite orb_false_iff, !bool_decide_eq_false.
  rewrite <- eq_None_not_Some. reflexivity.
Qed.

(** In a new temporary directory both [mkdir] succeed. *)
Lemma fresh_mkdirs w :
  tmp_fresh env (fs w) ->
  let T := mkdtemp env (fs w) in
  let kin := path_str (truediv (Path T) "input") in
  let kout := path_str (truediv (Path T) "output") in
  path_exists kin (fs (enter_tmp T w)) = false
  /\ path_exists kout (mkFS (files (fs (enter_tmp T w)))
                           ({[ kin ]} ∪ dirs (fs (enter_tmp T w)))) = false.
Proof.
  intros Hfresh T kin kout.
  assert (Gi : good_part "input" = true) by reflexivity.
  assert (Go : good_part "output" = true) by reflexivity.
  pose proof (Hfresh kin (is_under_child T "input" Gi eq_refl)) as Hin.
  pose proof (Hfresh kout (is_under_child T "output" Go eq_refl)) as Hout.
  apply path_exists_false in Hin as [Hin1 Hin2].
  apply path_exists_false in Hout as [Hout1 Hout2].
  pose proof (child_ne_parent T "input" Gi) as Ni.
  pose proof (child_ne_parent T "output" Go) as No.
  assert (Nio : kout <> kin).
  { apply children_differ; [assumption..|discriminate]. }
  split; apply path_exists_false; cbn; (split; [assumption|]);
    rewrite ?elem_of_union, !elem_of_singleton; tauto.
Qed.

Lemma rmtree_removes d p f :
  is_under d p = true -> path_exists p (rmtree d f) = false.
Proof.
  intros Hu. apply path_exists_false. unfold rmtree. cbn. split.
  - apply map_lookup_filter_None. right. intros x _. cbn. congruence.
  - intros H. apply elem_of_filter in H as [H _]. congruence.
Qed.

Lemma rmtree_keeps d p f :
  is_under d p = false -> path_exists p (rmtree d f) = path_exists p f.
Proof.
  intros Hu. unfold path_exists, rmtree. cbn. f_equal.
  - apply bool_decide_ext. unfold is_Some.
    split; intros [x Hx]; exists x.
    + apply map_lookup_filter_Some in Hx. tauto.
    + apply map_lookup_filter_Some. split; [assumption | exact Hu].
  - apply bool_decide_ext. rewrite elem_of_filter. tauto.
Qed.

(** The whole of [convert_files] in a new temporary directory. *)
Lemma convert_files_run items q ff w :
  tmp_fresh env (fs w) ->
  let T := mkdtemp env (fs w) in
  let Tin := truediv (Path T) "input" in
  let Tout := truediv (Path T) "output" in
  let f0 := mkFS (files (fs w))
              ({[ path_str Tout ]} ∪ ({[ path_str Tin ]} ∪ ({[ T ]} ∪ dirs (fs w)))) in
  convert_files env items q ff w =
  let '(rs, f1, cmds) := batch_outcome env Tin Tout q ff items f0 in
  let w1 := mkWorld f1
              (ui w ++ [st_progress (PInt 0); st_empty]
                    ++ batch_events (List.length items) 0 items rs
                    ++ report_events (List.length (outputs rs))
                                     (List.length (error_lines items rs))
                    ++ error_events (error_lines items rs))
              (session w) (launched w ++ cmds) in
  let '(r, w2) := offer_download env (outputs rs) w1 in
  (r, leave_tmp T w2).
Proof.
  intros Hfresh T Tin Tout f0.
  destruct (fresh_mkdirs w Hfresh) as [E1 E2]. fold T in E1, E2.
  unfold convert_files, with_TemporaryDirectory, convert_files_in. fold T.
  unfold bind. rewrite batch_report_run. fold Tin Tout in E1, E2 |- *.
  rewrite E1, E2. cbn [fs ui session launched files dirs enter_tmp].
  fold f0. destruct (batch_outcome env Tin Tout q ff items f0) as [[rs f1] cmds].
  cbn [converted_files]. reflexivity.
Qed.

End RunFacts.

(** ** The conversion invoker *)

Lemma output_path_for_parts i o :
  output_path_for i o
  = mkPath (root (Path o)) (tail (Path o) ++ [path_stem (Path i) +:+ ".m4a"]).
Proof.
  unfold output_path_for. apply truediv_good, m4a_name_good, path_stem_no_sep.
  apply parse_path_wf.
Qed.

Lemma output_basename i o :
  posixpath.basename (path_str (output_path_for i o)) = path_stem (Path i) +:+ ".m4a".
Proof.
  rewrite output_path_for_parts. apply basename_path_str_snoc.
  - apply (parse_path_wf o).
  - apply m4a_name_good, path_stem_no_sep, parse_path_wf.
Qed.

(** C3. For every input path, output directory, bitrate and tool command,
    [convert_to_m4a] launches exactly one process, with the argument list
    [tool -i input -c:a aac -b:a bitrate -movflags +faststart -y output];
    the overwrite flag [-y] is always there.  The output path is the output
    directory extended by the single component [stem.m4a], where [stem] is
    the input's base name without its extension: its base name is
    [stem.m4a] and its string is [output_dir/stem.m4a].  The input is passed
    as [pathlib] prints it, which changes nothing for a path that was
    printed by [pathlib] already.  The stem is read off the input string:
    when the input ends, after its last separator if it has one, with
    [base.ext], where [base] is not empty and [ext] is not empty and has no
    dot, the component is [base.m4a], the extension and its dot cut off;
    when it ends there with a name without any dot, the component is that
    name followed by [.m4a]. *)
Theorem convert_to_m4a_command env i o q ff w :
  let out := output_path_for i o in
  let m4a := path_stem (Path i) +:+ ".m4a" in
  launched (convert_to_m4a env i o q ff w).2
  = launched w ++ [[ ff; "-i"; path_str (Path i); "-c:a"; "aac"; "-b:a"; q;
                     "-movflags"; "+faststart"; "-y"; path_str out ]]
  /\ out = mkPath (root (Path o)) (tail (Path o) ++ [m4a])
  /\ posixpath.basename (path_str out) = m4a
  /\ path_str out = match tail (Path o) with
                    | [] => root (Path o) +:+ m4a
                    | _ :: _ => path_str (Path o) +:+ "/" +:+ m4a
                    end
  /\ path_str (Path (path_str (Path i))) = path_str (Path i)
  /\ (forall pre base ext,
        i = pre +:+ base +:+ "." +:+ ext ->
        pre = "" \/ (exists d, pre = d +:+ "/") ->
        base <> "" -> ext <> "" ->
        PyStr.contains "." ext = false ->
        PyStr.contains posixpath.sep (base +:+ "." +:+ ext) = false ->
        m4a = base +:+ ".m4a")
  /\ (forall pre nm,
        i = pre +:+ nm ->
        pre = "" \/ (exists d, pre = d +:+ "/") ->
        nm <> "" ->
        PyStr.contains "." nm = false ->
        PyStr.contains posixpath.sep nm = false ->
        m4a = nm +:+ ".m4a").
Proof.
  intros out m4a. rewrite convert_to_m4a_run. cbn [snd launched].
  split; [reflexivity|].
  split; [apply output_path_for_parts|].
  split; [apply output_basename|].
  split.
  { unfold out. rewrite output_path_for_parts. fold m4a.
    destruct (Path o) as [r t]. cbn [root tail].
    destruct t as [|y t].
    + unfold path_str. cbn [root tail app PyStr.join].
      destruct r; reflexivity.
    + apply (path_str_snoc r (y :: t) m4a). discriminate. }
  split.
  { unfold Path. rewrite parse_path_str by apply parse_path_wf. reflexivity. }
  split.
  - intros pre base ext -> Hpre Hb He Hd Hs. unfold m4a. f_equal.
    apply (path_stem_cut _ base ext); [|exact Hb|exact He|exact Hd].
    apply path_name_of_string; [|exact Hpre].
    apply named_good_part; [| |exact Hs].
    + destruct base; [congruence | discriminate].
    + intros E. apply (f_equal String.length) in E.
      rewrite !str_length_app in E.
      destruct base; [congruence|]. destruct ext; [congruence|].
      simpl in E. lia.
  - intros pre nm -> Hpre Hn Hd Hs. unfold m4a. f_equal.
    assert (Hname : path_name (Path (pre +:+ nm)) = nm).
    { apply path_name_of_string; [|exact Hpre].
      apply named_good_part; [exact Hn| |exact Hs].
      intros ->. discriminate Hd. }
    rewrite path_stem_no_dot; rewrite Hname; [reflexivity | exact Hd].
Qed.

Lemma convert_to_m4a_command_witness :
  path_stem (Path "/tmp/tmpk3/input/song.wav") +:+ ".m4a" = "song" +:+ ".m4a"
  /\ path_stem (Path "README") +:+ ".m4a" = "README" +:+ ".m4a".
Proof.
  pose proof (convert_to_m4a_command Scenario.copy_tool "/tmp/tmpk3/input/song.wav"
                "/tmp/tmpk3/output" "192k" "ffmpeg" Scenario.world0) as H1.
  pose proof (convert_to_m4a_command Scenario.copy_tool "README"
                "/tmp/tmpk3/output" "192k" "ffmpeg" Scenario.world0) as H2.
  cbn zeta in H1, H2.
  destruct H1 as (_ & _ & _ & _ & _ & Hcut & _).
  destruct H2 as (_ & _ & _ & _ & _ & _ & Hplain).
  split.
  - apply (Hcut "/tmp/tmpk3/input/" "song" "wav").
    + reflexivity.
    + right. exists "/tmp/tmpk3/input". reflexivity.
    + discriminate.
    + discriminate.
    + reflexivity.
    + reflexivity.
  - apply (Hplain "" "README").
    + reflexivity.
    + left. reflexivity.
    + discriminate.
    + reflexivity.
    + reflexivity.
Defined.

(** Only the last suffix is cut, and a leading dot starts none. *)
Example output_names :
  List.map (fun i => path_str (output_path_for i "/tmp/tmpk3/output"))
    [ "/tmp/tmpk3/input/song.wav"; "archive.tar.gz"; ".hidden"; "a/b.c/take1" ]
  = [ "/tmp/tmpk3/output/song.m4a"; "/tmp/tmpk3/output/archive.tar.m4a";
      "/tmp/tmpk3/output/.hidden.m4a"; "/tmp/tmpk3/output/take1.m4a" ].
Proof. vm_compute. reflexivity. Qed.

(** C2, as the code has it.  [convert_to_m4a] returns success if and only
    if [subprocess.run] returns with exit status zero; it does not look at
    the output file, which is on disk afterwards exactly when the tool left
    it there (the file system after the call is the one the tool left).  On
    a non-zero status the diagnostic is the tool's error stream, and when
    [subprocess.run] raises it is the exception's message. *)
Theorem convert_to_m4a_success_iff_exit0 env i o q ff w :
  let r := convert_to_m4a env i o q ff w in
  let launch := spawn env (ffmpeg_cmd i o q ff) (fs w) in
  ((exists p, r.1 = Ret (true, Some p, None))
   <-> (exists so se, launch.1 = Exited 0 so se))
  /\ fs r.2 = launch.2
  /\ match launch.1 with
     | Exited rc _ se =>
         r.1 = Ret (if rc =? 0
                    then (true, Some (path_str (output_path_for i o)), None)
                    else (false, None, Some se))
     | RunRaised e => r.1 = Ret (false, None, Some (exn_msg e))
     end.
Proof.
  intros r launch. unfold r. rewrite convert_to_m4a_run. cbn [fst snd fs].
  fold launch. split; [|split; [reflexivity|]].
  - destruct (launch.1) as [rc so se|e].
    + destruct (rc =? 0) eqn:E.
      * apply Z.eqb_eq in E. subst rc. split; eauto.
      * split; [intros [p H]; discriminate|].
        intros (so' & se' & H). injection H as -> _ _. discriminate.
    + split; [intros [p H]; discriminate | intros (so & se & H); discriminate].
  - destruct (launch.1) as [rc so se|e]; reflexivity.
Qed.

(** C2 as worded fails: a tool that exits with status zero without writing
    its output makes [convert_to_m4a] report success although the output
    file is not on disk. *)
Lemma success_without_output_file :
  ~ success_iff_exit0_and_output Scenario.silent_tool
      "/tmp/tmpk3/input/song.wav" "/tmp/tmpk3/output" "192k" "ffmpeg"
      Scenario.world0.
Proof.
  unfold success_iff_exit0_and_output. intros [H _].
  destruct H as [_ [b Hb]].
  - exists "/tmp/tmpk3/output/song.m4a". vm_compute. reflexivity.
  - vm_compute in Hb. discriminate.
Qed.

(** C10. [convert_to_m4a] always returns a triple and never raises.  On
    success the output path is set and the error message is [None]; on
    failure the output path is [None] and the error message is set: to the
    tool's error stream when the tool ran, to the exception's string when
    [subprocess.run] raised. *)
Theorem convert_to_m4a_total env i o q ff w :
  exists success output_path error_msg w',
    convert_to_m4a env i o q ff w = (Ret (success, output_path, error_msg), w')
    /\ (if success
        then output_path = Some (path_str (output_path_for i o)) /\ error_msg = None
        else output_path = None
             /\ exists d, error_msg = Some d
                /\ match (spawn env (ffmpeg_cmd i o q ff) (fs w)).1 with
                   | Exited _ _ se => d = se
                   | RunRaised e => d = exn_msg e
                   end).
Proof.
  rewrite convert_to_m4a_run. cbn zeta.
  destruct (spawn env (ffmpeg_cmd i o q ff) (fs w)) as [[rc so se|e] f']; cbn [fst snd].
  - destruct (rc =? 0); do 4 eexists; (split; [reflexivity|]); cbn; eauto.
  - do 4 eexists. split; [reflexivity|]. cbn. eauto.
Qed.

(** ** The batch orchestrator *)

Lemma fresh_empty env : tmp_fresh env (mkFS ∅ ∅).
Proof.
  intros p _. apply path_exists_false. cbn. split.
  - apply lookup_empty.
  - apply not_elem_of_empty.
Qed.






(** A batch in which the tool rejects the second item and the disk refuses
    the third: the first and the fourth are converted all the same. *)
Example mixed_batch_results :
  batch_results Scenario.picky_tool Scenario.mixed_batch "192k" "ffmpeg"
                Scenario.world0
  = [ Converted "/tmp/tmpk3/output/song.m4a";
      ToolFailed "Invalid data found when processing input";
      Crashed "[Errno 28] No space left on device";
      Converted "/tmp/tmpk3/output/b.m4a" ].
Proof. vm_compute. reflexivity. Qed.

(** ** Progress *)

Lemma progress_values_app a b :
  progress_values (a ++ b) = progress_values a ++ progress_values b.
Proof. apply omap_app. Qed.

Lemma batch_events_progress n items :
  forall i rs, List.length rs = List.length items ->
  progress_values (batch_events n i items rs)
  = List.map (fun k => quotient k n) (List.seq (i + 1) (List.length items)).
Proof.
  induction items as [|f items IH]; intros i [|r rs] Hlen; try discriminate.
  - reflexivity.
  - injection Hlen as Hlen. cbn [batch_events List.length List.seq List.map].
    rewrite progress_values_app, (IH (S i) rs Hlen).
    replace (S i + 1)%nat with (S (i + 1)) by lia.
    destruct r; reflexivity.
Qed.

Lemma error_events_progress errs : progress_values (error_events errs) = [].
Proof.
  destruct errs as [|e errs]; [reflexivity|]. cbn.
  induction errs as [|x errs IH]; [reflexivity | exact IH].
Qed.

Lemma offer_download_progress env converted w :
  progress_values (ui (offer_download env converted w).2) = progress_values (ui w).
Proof.
  rewrite offer_download_run. destruct converted as [|p [|p2 rest]].
  - reflexivity.
  - cbn zeta. destruct (open_rb_read p _) as [[b|e] w']; cbn [snd ui];
      rewrite progress_values_app; cbn; apply app_nil_r.
  - cbn [snd ui]. rewrite progress_values_app. cbn. apply app_nil_r.
Qed.

(** C6, as the code has it.  For every batch of N items, run in a new
    temporary directory, the loop passes N values to the progress bar, and
    the k-th of them, for 1 <= k <= N, is the binary64 quotient of k by N
    that Python's true division computes: k/N rounded to the nearest double,
    and k/N itself only when that is a double. *)
Theorem progress_is_binary64_quotient env items q ff w :
  tmp_fresh env (fs w) ->
  progress_values (ui (convert_files env items q ff w).2)
  = progress_values (ui w)
    ++ List.map (fun k => SFdiv 53 1024 (float_of_int (Z.of_nat k))
                                       (float_of_int (Z.of_nat (List.length items))))
                (List.seq 1 (List.length items)).
Proof.
  intros Hfresh. rewrite (convert_files_run env items q ff w Hfresh). cbn zeta.
  match goal with
  | |- context [batch_outcome ?e ?a ?b ?c ?d ?i ?f] =>
      pose proof (batch_outcome_length e a b c d i f) as Hlen;
      destruct (batch_outcome e a b c d i f) as [[rs f1] cmds]
  end.
  cbn [fst] in Hlen.
  match goal with
  | |- context [offer_download env ?c ?w1] =>
      pose proof (offer_download_progress env c w1) as Hdl;
      destruct (offer_download env c w1) as [r w2]
  end.
  cbn [snd ui leave_tmp] in *. rewrite Hdl.
  rewrite !progress_values_app, (batch_events_progress _ items 0 rs Hlen).
  rewrite error_events_progress. cbn [progress_values omap is_float_progress
    report_events app]. rewrite !app_nil_r. reflexivity.
Qed.

Lemma progress_is_binary64_quotient_witness :
  progress_values
    (ui (convert_files Scenario.copy_tool Scenario.three_files "192k" "ffmpeg"
                       Scenario.world0).2)
  = progress_values (ui Scenario.world0)
    ++ List.map (fun k => SFdiv 53 1024 (float_of_int (Z.of_nat k))
                            (float_of_int (Z.of_nat (List.length Scenario.three_files))))
                (List.seq 1 (List.length Scenario.three_files)).
Proof.
  apply (progress_is_binary64_quotient Scenario.copy_tool Scenario.three_files
           "192k" "ffmpeg" Scenario.world0).
  apply fresh_empty.
Defined.

(** C6 as worded fails: with three items the first progress value is the
    double 6004799503160661 / 2^54, which is not 1/3. *)
Lemma progress_one_third_not_exact :
  ~ progress_is_exact Scenario.copy_tool Scenario.three_files "192k" "ffmpeg"
      Scenario.world0.
Proof.
  intros H. destruct (H 1%nat) as (f & Hf & He).
  - cbn. lia.
  - vm_compute in Hf. injection Hf as <-. vm_compute in He. discriminate.
Qed.

Example first_of_three_progress :
  quotient 1 3 = S754_finite false 6004799503160661 (-54).
Proof. vm_compute. reflexivity. Qed.

Example halfway_progress_exact : exact_ratio (quotient 1 2) 1 2 = true.
Proof. vm_compute. reflexivity. Qed.

Example last_of_three_progress_exact : exact_ratio (quotient 3 3) 3 3 = true.
Proof. vm_compute. reflexivity. Qed.

(** ** Download *)

Lemma downloads_app a b : downloads (a ++ b) = downloads a ++ downloads b.
Proof. apply omap_app. Qed.

Lemma downloads_skip e l : is_download e = None -> downloads (e :: l) = downloads l.
Proof. intros H. unfold downloads. cbn. rewrite H. reflexivity. Qed.

Lemma batch_events_downloads n items :
  forall i rs, downloads (batch_events n i items rs) = [].
Proof.
  induction items as [|f items IH]; intros i [|r rs]; try reflexivity.
  cbn [batch_events]. rewrite downloads_app, IH. destruct r; reflexivity.
Qed.

Lemma error_events_downloads errs : downloads (error_events errs) = [].
Proof.
  destruct errs as [|e errs]; [reflexivity|]. cbn.
  induction errs as [|x errs IH]; [reflexivity | exact IH].
Qed.

(** When the report is reached, the two lists hold the outputs of the
    converted items and a line per failure, and no download was offered yet. *)
Lemma batch_report_returned env items q ff T w l w1 :
  batch_report env items q ff T w = (Ret l, w1) ->
  exists rs f0,
    rs = (batch_outcome env (truediv (Path T) "input") (truediv (Path T) "output")
                        q ff items f0).1.1
    /\ l = mkLists (outputs rs) (error_lines items rs)
    /\ downloads (ui w1) = downloads (ui w).
Proof.
  rewrite batch_report_run. cbn zeta.
  destruct (path_exists _ (fs w)); [discriminate|].
  destruct (path_exists _ _); [discriminate|].
  intros Heq.
  match type of Heq with
  | context [batch_outcome ?e ?a ?b ?c ?d ?i ?f] =>
      exists (batch_outcome e a b c d i f).1.1, f;
      destruct (batch_outcome e a b c d i f) as [[rs f1] cmds]
  end.
  injection Heq as <- <-. cbn [fst ui].
  split; [reflexivity|]. split; [reflexivity|].
  rewrite downloads_app, !downloads_skip by reflexivity.
  rewrite downloads_app, batch_events_downloads, !downloads_skip by reflexivity.
  rewrite error_events_downloads. cbn. apply app_nil_r.
Qed.

Lemma item_output_named env Tin Tout q ff f f0 :
  Forall (fun p => PyStr.is_empty (posixpath.basename p) = false)
         (outputs [(item_outcome env Tin Tout q ff f f0).1.1]).
Proof.
  unfold item_outcome. destruct (bool_decide _); [constructor|].
  destruct (open_wb_error env _ f0); [constructor|].
  destruct (spawn env _ _) as [[rc so se|e] f2]; cbn; [|constructor].
  destruct (rc =? 0); cbn; [|constructor].
  constructor; [|constructor]. rewrite output_basename.
  destruct (path_stem _); reflexivity.
Qed.

Lemma batch_outputs_named env Tin Tout q ff items :
  forall f0,
  Forall (fun p => PyStr.is_empty (posixpath.basename p) = false)
         (outputs (batch_outcome env Tin Tout q ff items f0).1.1).
Proof.
  induction items as [|f items IH]; intros f0; [constructor|].
  cbn [batch_outcome].
  pose proof (item_output_named env Tin Tout q ff f f0) as H1.
  destruct (item_outcome env Tin Tout q ff f f0) as [[r f1] c1].
  specialize (IH f1).
  destruct (batch_outcome env Tin Tout q ff items f1) as [[rs f2] c2].
  cbn [fst] in *. rewrite outputs_cons. apply Forall_app. split; assumption.
Qed.

Lemma zip_members_cons env f p ps :
  zip_members env f (p :: ps)
  = match zip_member env f p with
    | Some e => e :: zip_members env f ps
    | None => zip_members env f ps
    end.
Proof. reflexivity. Qed.

(** What the archive holds for paths that are regular files. *)
Lemma zip_members_regular env f ps :
  Forall (fun p => is_Some (files f !! p)) ps ->
  Forall2 (fun p e => exists b, files f !! p = Some b
                      /\ e = mkZipEntry (zip_arcname (posixpath.basename p)) false
                                        (deflate env b))
          ps (zip_members env f ps).
Proof.
  induction 1 as [|p ps [b Hb] _ IH]; [constructor|].
  rewrite zip_members_cons. unfold zip_member at 1. rewrite Hb.
  constructor; [eauto | exact IH].
Qed.

Lemma zip_names_basenames env f ps :
  Forall (fun p => is_Some (files f !! p)) ps ->
  Forall (fun p => PyStr.is_empty (posixpath.basename p) = false) ps ->
  List.map arcname (zip_members env f ps) = List.map posixpath.basename ps.
Proof.
  intros Hreg Hnamed. pose proof (zip_members_regular env f ps Hreg) as H.
  induction H as [|p e ps es (b & _ & ->) _ IH]; [reflexivity|].
  inversion Hreg; subst. inversion Hnamed as [|? ? Hp Hps]; subst.
  cbn. unfold zip_arcname. rewrite Hp. f_equal. apply IH; assumption.
Qed.

(** C4, as the code has it.  Let the loop and the report be through, with
    [converted_files] holding the outputs of the successful items, and let
    every one of them be a regular file at that moment.  Then [convert_files]
    returns normally and offers: nothing if no item succeeded; if exactly one
    did, one download of that file's bytes under its base name with media
    type [audio/mp4]; if two or more did, one download named
    [converted_audio_files.zip] with media type [application/zip] whose
    members are exactly the successful outputs' base names, in order, each
    holding the deflated bytes of its file.  Failed items are in the other
    list and get no member. *)
Theorem download_offer env items q ff w l w1 :
  let T := mkdtemp env (fs w) in
  batch_report env items q ff T (enter_tmp T w) = (Ret l, w1) ->
  Forall (fun p => is_Some (files (fs w1) !! p)) (converted_files l) ->
  (convert_files env items q ff w).1 = Ret tt
  /\ (List.length (converted_files l) + List.length (errors l))%nat
     = List.length items
  /\ let offered := downloads (ui (convert_files env items q ff w).2) in
     match converted_files l with
     | [] => offered = downloads (ui w)
     | [p] =>
         exists b, files (fs w1) !! p = Some b
           /\ offered
              = downloads (ui w) ++ [(FileBytes b, posixpath.basename p, "audio/mp4")]
     | ps =>
         exists entries,
           offered = downloads (ui w)
                     ++ [(ZipBytes entries, "converted_audio_files.zip",
                          "application/zip")]
           /\ List.map arcname entries = List.map posixpath.basename ps
           /\ Forall2 (fun p e => exists b, files (fs w1) !! p = Some b
                                  /\ compressed e = deflate env b
                                  /\ is_dir_entry e = false) ps entries
     end.
Proof.
  intros T Hrep Hreg.
  destruct (batch_report_returned env items q ff T _ l w1 Hrep)
    as (rs & f0 & Hrs & Hl & Hdl).
  cbn [ui enter_tmp] in Hdl.
  assert (Hnamed : Forall (fun p => PyStr.is_empty (posixpath.basename p) = false)
                          (converted_files l)).
  { rewrite Hl, Hrs. cbn [converted_files]. apply batch_outputs_named. }
  assert (Hcount : (List.length (converted_files l) + List.length (errors l))%nat
                   = List.length items).
  { rewrite Hl. cbn [converted_files errors]. apply outputs_errors_count.
    rewrite Hrs. apply batch_outcome_length. }
  unfold convert_files, with_TemporaryDirectory, convert_files_in. fold T.
  unfold bind. rewrite Hrep, offer_download_run.
  destruct (converted_files l) as [|p [|p2 rest]] eqn:Egood.
  - cbn. repeat split; [exact Hcount | exact Hdl].
  - inversion Hreg as [|? ? [b Hb] _]; subst.
    unfold open_rb_read, bind, get_fs. cbn. rewrite Hb. cbn.
    repeat split; [exact Hcount|]. exists b. split; [reflexivity|].
    rewrite downloads_app, Hdl. reflexivity.
  - cbn [fst snd ui leave_tmp]. repeat split; [exact Hcount|].
    exists (zip_members env (fs w1) (p :: p2 :: rest)).
    split; [rewrite downloads_app, Hdl; reflexivity|].
    split; [apply zip_names_basenames; assumption|].
    eapply Forall2_impl; [apply zip_members_regular; exact Hreg|].
    intros x e (b & Hb & ->). exists b. auto.
Qed.

Lemma download_offer_witness :
  (convert_files Scenario.copy_tool Scenario.three_files "192k" "ffmpeg"
                 Scenario.world0).1 = Ret tt
  /\ (List.length (converted_files Scenario.three_files_lists)
      + List.length (errors Scenario.three_files_lists))%nat
     = List.length Scenario.three_files
  /\ let offered :=
       downloads (ui (convert_files Scenario.copy_tool Scenario.three_files
                                    "192k" "ffmpeg" Scenario.world0).2) in
     match converted_files Scenario.three_files_lists with
     | [] => offered = downloads (ui Scenario.world0)
     | [p] =>
         exists b, files (fs Scenario.three_files_reported) !! p = Some b
           /\ offered
              = downloads (ui Scenario.world0)
                ++ [(FileBytes b, posixpath.basename p, "audio/mp4")]
     | ps =>
         exists entries,
           offered = downloads (ui Scenario.world0)
                     ++ [(ZipBytes entries, "converted_audio_files.zip",
                          "application/zip")]
           /\ List.map arcname entries = List.map posixpath.basename ps
           /\ Forall2 (fun p e =>
                         exists b,
                           files (fs Scenario.three_files_reported) !! p = Some b
                           /\ compressed e = deflate Scenario.copy_tool b
                           /\ is_dir_entry e = false) ps entries
     end.
Proof.
  apply (download_offer Scenario.copy_tool Scenario.three_files "192k" "ffmpeg"
                        Scenario.world0 Scenario.three_files_lists
                        Scenario.three_files_reported).
  - vm_compute. reflexivity.
  - vm_compute. repeat (constructor; [eexists; reflexivity|]). constructor.
Defined.

(** C4 as worded fails: when the tool exits with status zero without
    writing its outputs, two items count as successful and the archive that
    is offered has no member, [create_zip_file] having skipped both paths. *)
Lemma two_successes_no_member :
  ~ download_per_successes Scenario.silent_tool Scenario.two_files
      "192k" "ffmpeg" Scenario.world0.
Proof.
  intros H.
  specialize (H (mkLists ["/tmp/tmpk3/output/a.m4a"; "/tmp/tmpk3/output/b.m4a"] [])
                (batch_report Scenario.silent_tool Scenario.two_files
                   "192k" "ffmpeg" "/tmp/tmpk3"
                   (enter_tmp "/tmp/tmpk3" Scenario.world0)).2).
  destruct H as (entries & Hoffer & Hnames).
  - vm_compute. reflexivity.
  - vm_compute in Hoffer. injection Hoffer as <-. discriminate Hnames.
Qed.

(** With one such success, opening the missing output raises out of
    [convert_files], and nothing is offered. *)
Example one_success_raises :
  let r := convert_files Scenario.silent_tool [mkUpload "song.wav" Scenario.riff]
                         "192k" "ffmpeg" Scenario.world0 in
  r.1 = Raise (mkExn FileNotFoundError
                 "[Errno 2] No such file or directory: '/tmp/tmpk3/output/song.m4a'")
  /\ downloads (ui r.2) = [].
Proof. vm_compute. split; reflexivity. Qed.

Example two_successes_empty_archive :
  downloads (ui (convert_files Scenario.silent_tool Scenario.two_files
                               "192k" "ffmpeg" Scenario.world0).2)
  = [(ZipBytes [], "converted_audio_files.zip", "application/zip")].
Proof. vm_compute. reflexivity. Qed.

Example three_files_archive :
  downloads (ui (convert_files Scenario.copy_tool Scenario.three_files
                               "192k" "ffmpeg" Scenario.world0).2)
  = [(ZipBytes [ mkZipEntry "a.m4a" false Scenario.riff;
                 mkZipEntry "b.m4a" false Scenario.oggs;
                 mkZipEntry "c.m4a" false Scenario.id3 ],
      "converted_audio_files.zip", "application/zip")].
Proof. vm_compute. reflexivity. Qed.

(** ** The archive packager *)

(** C7. For every list of paths, [create_zip_file] returns normally and
    leaves the file system as it was, so that packaging the same list again
    gives the same members: their names are the base names of the paths that
    exist, in the order of the list, a path that does not exist being
    skipped; and inflating the member written for a regular file gives back
    that file's bytes, for any inflate that inverts the deflate used. *)
Theorem create_zip_file_idempotent env inflate paths zn w :
  (forall b, inflate (deflate env b) = Some b) ->
  exists entries,
    create_zip_file env paths zn w = (Ret entries, w)
    /\ (z1 <- create_zip_file env paths zn ;;
        z2 <- create_zip_file env paths zn ;;
        ret (z1, z2)) w = (Ret (entries, entries), w)
    /\ List.length entries
       = List.length (List.filter (fun p => path_exists p (fs w)) paths)
    /\ Forall2 (fun p e =>
                  arcname e
                  = zip_arcname (posixpath.basename p)
                    +:+ (if is_dir_entry e then "/" else "")
                  /\ forall b, files (fs w) !! p = Some b ->
                               is_dir_entry e = false
                               /\ inflate (compressed e) = Some b)
               (List.filter (fun p => path_exists p (fs w)) paths) entries.
Proof.
  intros Hinv. exists (zip_members env (fs w) paths).
  split; [apply create_zip_file_run|]. split.
  - unfold bind. rewrite !create_zip_file_run. reflexivity.
  - assert (H : Forall2 (fun p e =>
                  arcname e
                  = zip_arcname (posixpath.basename p)
                    +:+ (if is_dir_entry e then "/" else "")
                  /\ forall b, files (fs w) !! p = Some b ->
                               is_dir_entry e = false
                               /\ inflate (compressed e) = Some b)
               (List.filter (fun p => path_exists p (fs w)) paths)
               (zip_members env (fs w) paths)).
    { induction paths as [|p paths IH]; [constructor|].
      rewrite zip_members_cons. cbn [List.filter].
      unfold zip_member, path_exists.
      destruct (files (fs w) !! p) as [b|] eqn:Hf; cbn.
      - constructor; [|exact IH]. cbn. split.
        + clear. induction (zip_arcname _) as [|a s IHs]; [reflexivity|].
          rewrite app_cons_str, <- IHs. reflexivity.
        + intros b' Hb'. rewrite Hf in Hb'. injection Hb' as <-. auto.
      - destruct (bool_decide (p ∈ dirs (fs w))); cbn; [|exact IH].
        constructor; [|exact IH]. cbn. split; [reflexivity|].
        intros b' Hb'. rewrite Hf in Hb'. discriminate. }
    split; [|exact H]. symmetry. eapply Forall2_length. exact H.
Qed.

Lemma create_zip_file_idempotent_witness :
  exists entries,
    create_zip_file Scenario.copy_tool Scenario.packed_paths "converted_files.zip"
                    Scenario.packed_world
    = (Ret entries, Scenario.packed_world)
    /\ (z1 <- create_zip_file Scenario.copy_tool Scenario.packed_paths
                              "converted_files.zip" ;;
        z2 <- create_zip_file Scenario.copy_tool Scenario.packed_paths
                              "converted_files.zip" ;;
        ret (z1, z2)) Scenario.packed_world
       = (Ret (entries, entries), Scenario.packed_world)
    /\ List.length entries
       = List.length (List.filter (fun p => path_exists p (fs Scenario.packed_world))
                                  Scenario.packed_paths)
    /\ Forall2 (fun p e =>
                  arcname e
                  = zip_arcname (posixpath.basename p)
                    +:+ (if is_dir_entry e then "/" else "")
                  /\ forall b, files (fs Scenario.packed_world) !! p = Some b ->
                               is_dir_entry e = false
                               /\ Some (compressed e) = Some b)
               (List.filter (fun p => path_exists p (fs Scenario.packed_world))
                            Scenario.packed_paths)
               entries.
Proof.
  apply (create_zip_file_idempotent Scenario.copy_tool (fun b => Some b)
           Scenario.packed_paths "converted_files.zip" Scenario.packed_world).
  intros b. reflexivity.
Defined.

Example packaging_skips_missing :
  (create_zip_file Scenario.copy_tool Scenario.packed_paths "converted_files.zip"
                   Scenario.packed_world).1
  = Ret [ mkZipEntry "x.m4a" false Scenario.riff;
          mkZipEntry "y.m4a" false Scenario.oggs ].
Proof. vm_compute. reflexivity. Qed.

(** ** The temporary directory *)

Lemma path_name_truediv p key :
  tail (Path key) <> [] -> path_name (truediv p key) = path_name (Path key).
Proof.
  intros Hne. unfold truediv, Path in *.
  destruct (negb (PyStr.is_empty (root (parse_path key)))); [reflexivity|].
  unfold path_name. cbn [tail].
  destruct (tail (parse_path key)) as [|x t] using rev_ind; [congruence|].
  rewrite app_assoc, !last_last. reflexivity.
Qed.

Lemma path_stem_truediv p key :
  tail (Path key) <> [] -> path_stem (truediv p key) = path_stem (Path key).
Proof. intros Hne. unfold path_stem. rewrite (path_name_truediv p key Hne). reflexivity. Qed.








(** What that batch leaves: the copy, with the uploaded bytes, after a
    normal return. *)
Example absolute_name_copy_stays :
  let r := convert_files Scenario.copy_tool [absolute_upload] "192k" "ffmpeg"
                         Scenario.world0 in
  r.1 = Ret tt
  /\ input_copy "/tmp/tmpk3" absolute_upload = "/var/tmp/evil.wav"
  /\ files (fs r.2) !! "/var/tmp/evil.wav" = Some (data absolute_upload)
  /\ path_exists "/var/tmp/evil.wav" (fs Scenario.world0) = false
  /\ path_exists "/tmp/tmpk3" (fs r.2) = false.
Proof. vm_compute. repeat split; reflexivity. Qed.

(** Both ways out leave the same empty disk. *)
Example removed_after_return :
  let r := convert_files Scenario.copy_tool Scenario.three_files "192k" "ffmpeg"
                         Scenario.world0 in
  r.1 = Ret tt /\ fs r.2 = mkFS ∅ ∅.
Proof. vm_compute. split; reflexivity. Qed.

Example removed_after_raise :
  let r := convert_files Scenario.silent_tool [mkUpload "song.wav" Scenario.riff]
                         "192k" "ffmpeg" Scenario.world0 in
  exn_class <$> (match r.1 with Raise e => Some e | Ret _ => None end)
  = Some FileNotFoundError
  /\ fs r.2 = mkFS ∅ ∅.
Proof. vm_compute. split; reflexivity. Qed.

(** ** Colliding names *)

Lemma colliding_outputs Tin o na nb :
  wf_path Tin ->
  tail (Path na) <> [] -> tail (Path nb) <> [] ->
  path_stem (Path na) = path_stem (Path nb) ->
  output_path_for (path_str (truediv Tin na)) o
  = output_path_for (path_str (truediv Tin nb)) o.
Proof.
  intros Hwf Ha Hb Hstem. unfold output_path_for, Path.
  rewrite !parse_path_str by (apply truediv_wf; exact Hwf).
  rewrite (path_stem_truediv Tin na Ha), (path_stem_truediv Tin nb Hb), Hstem.
  reflexivity.
Qed.

Lemma output_display_name Tin o n :
  wf_path Tin -> tail (Path n) <> [] ->
  path_name (Path (path_str (output_path_for (path_str (truediv Tin n)) o)))
  = path_stem (Path n) +:+ ".m4a".
Proof.
  intros Hwf Hn. rewrite output_path_for_parts. unfold Path at 1.
  rewrite parse_path_str.
  - rewrite path_name_snoc. unfold Path at 1.
    rewrite parse_path_str by (apply truediv_wf; exact Hwf).
    rewrite (path_stem_truediv Tin n Hn). reflexivity.
  - split; [apply (parse_path_wf o)|]. cbn [tail].
    apply Forall_app. split; [apply (parse_path_wf o)|].
    constructor; [|constructor].
    apply m4a_name_good, path_stem_no_sep, parse_path_wf.
Qed.

(** C8. Within one batch, let the name of a later item [b] collide with that
    of an earlier item [a] once the extension is stripped, and let [a]'s
    output be on disk.  Both items are given the same output path.  When the
    copy of [b] is written and the tool converts it, writing its output
    where it was told to, the iteration for [b] ends in success: no error is
    recorded, the shared path is appended to the converted files once more,
    and the file at that path now holds [b]'s conversion, the earlier one
    being lost without notice. *)
Theorem name_collision_overwrites env T q ff n i a b l w old new so se f2 :
  let Tin := truediv (Path T) "input" in
  let Tout := truediv (Path T) "output" in
  let copy f := path_str (truediv Tin (name f)) in
  let out f := path_str (output_path_for (copy f) (path_str Tout)) in
  tail (Path (name a)) <> [] ->
  tail (Path (name b)) <> [] ->
  path_stem (Path (name a)) = path_stem (Path (name b)) ->
  files (fs w) !! out a = Some old ->
  n <> 0%nat ->
  bool_decide (copy b ∈ dirs (fs w)) = false ->
  open_wb_error env (copy b) (fs w) = None ->
  spawn env (ffmpeg_cmd (copy b) (path_str Tout) q ff)
        (mkFS (<[copy b := data b]> (files (fs w))) (dirs (fs w)))
  = (Exited 0 so se, f2) ->
  files f2 !! out b = Some new ->
  out b = out a
  /\ exists w',
       convert_one env Tin Tout q ff n i b l w
       = (Ret (mkLists (converted_files l ++ [out a]) (errors l)), w')
       /\ files (fs w') !! out a = Some new
       /\ ui w'
          = ui w ++ [ st_progress (PFloat (quotient (i + 1) n));
                      st_status_text (status_line b (i + 1) n);
                      st_success ("✅ " +:+ name b +:+ " → "
                                  +:+ path_stem (Path (name b)) +:+ ".m4a") ].
Proof.
  intros Tin Tout copy out Ha Hb Hstem Hold Hn Hdir Hopen Hspawn Hnew.
  assert (Hwf : wf_path Tin) by (apply truediv_wf, parse_path_wf).
  assert (Hout : out b = out a).
  { unfold out, copy. f_equal. symmetry. apply colliding_outputs; assumption. }
  split; [exact Hout|].
  rewrite (convert_one_run env Tin Tout q ff n i b l w Hn).
  unfold item_outcome. fold (copy b). rewrite Hdir, Hopen, Hspawn.
  cbn [Z.eqb outputs error_lines error_line app]. fold (out b).
  eexists. split; [rewrite Hout, app_nil_r; reflexivity|].
  cbn [fs ui]. split; [rewrite <- Hout; exact Hnew|].
  unfold item_events, outcome_event. fold (out b). unfold out, copy.
  rewrite (output_display_name Tin (path_str Tout) (name a) Hwf Ha), Hstem.
  reflexivity.
Qed.

Lemma name_collision_overwrites_witness :
  "/tmp/tmpk3/output/song.m4a" = "/tmp/tmpk3/output/song.m4a"
  /\ exists w',
       convert_one Scenario.copy_tool
         (truediv (Path "/tmp/tmpk3") "input") (truediv (Path "/tmp/tmpk3") "output")
         "192k" "ffmpeg" 2 1 Scenario.song_mp3
         (mkLists ["/tmp/tmpk3/output/song.m4a"] []) Scenario.after_song_wav
       = (Ret (mkLists (["/tmp/tmpk3/output/song.m4a"]
                        ++ ["/tmp/tmpk3/output/song.m4a"]) []), w')
       /\ files (fs w') !! "/tmp/tmpk3/output/song.m4a" = Some Scenario.id3
       /\ ui w'
          = ui Scenario.after_song_wav
            ++ [ st_progress (PFloat (quotient (1 + 1) 2));
                 st_status_text (status_line Scenario.song_mp3 (1 + 1) 2);
                 st_success ("✅ " +:+ "song.mp3" +:+ " → " +:+ "song" +:+ ".m4a") ].
Proof.
  apply (name_collision_overwrites Scenario.copy_tool "/tmp/tmpk3" "192k" "ffmpeg"
           2 1 Scenario.song_wav Scenario.song_mp3
           (mkLists ["/tmp/tmpk3/output/song.m4a"] []) Scenario.after_song_wav
           Scenario.riff Scenario.id3 "" ""
           (mkFS {[ "/tmp/tmpk3/input/song.wav" := Scenario.riff;
                    "/tmp/tmpk3/input/song.mp3" := Scenario.id3;
                    "/tmp/tmpk3/output/song.m4a" := Scenario.id3 ]}
                 {[ "/tmp/tmpk3"; "/tmp/tmpk3/input"; "/tmp/tmpk3/output" ]})).
  - vm_compute. discriminate.
  - vm_compute. discriminate.
  - reflexivity.
  - vm_compute. reflexivity.
  - lia.
  - vm_compute. reflexivity.
  - reflexivity.
  - vm_compute. reflexivity.
  - vm_compute. reflexivity.
Defined.

(** The whole batch of [song.wav] and [song.mp3]: two successes, no error,
    one path twice, and an archive with two members of the same name that
    both hold the later conversion. *)
Example same_stem_batch :
  let r := convert_files Scenario.copy_tool Scenario.same_stem "192k" "ffmpeg"
                         Scenario.world0 in
  batch_results Scenario.copy_tool Scenario.same_stem "192k" "ffmpeg" Scenario.world0
  = [ Converted "/tmp/tmpk3/output/song.m4a"; Converted "/tmp/tmpk3/output/song.m4a" ]
  /\ downloads (ui r.2)
     = [(ZipBytes [ mkZipEntry "song.m4a" false Scenario.id3;
                    mkZipEntry "song.m4a" false Scenario.id3 ],
         "converted_audio_files.zip", "application/zip")].
Proof. vm_compute. split; reflexivity. Qed.

(** ** The tool locator *)

(** One turn of the loop of [check_ffmpeg]. *)
Lemma check_ffmpeg_from_step env p rest w :
  check_ffmpeg_from env (p :: rest) w =
  let w' := mkWorld (spawn env [p; "-version"] (fs w)).2 (ui w) (session w)
                    (launched w ++ [[p; "-version"]]) in
  match (spawn env [p; "-version"] (fs w)).1 with
  | Exited rc _ _ =>
      if rc =? 0 then (Ret (Some p), w') else check_ffmpeg_from env rest w'
  | RunRaised e =>
      if except_probe e then check_ffmpeg_from env rest w' else (Raise e, w')
  end.
Proof.
  cbn [check_ffmpeg_from].
  unfold try_except, subprocess_run, bind, get_fs, log_launch, put_fs, ret, raise.
  cbn. destruct (spawn env _ (fs w)) as [[rc so se|e] f']; cbn.
  - destruct (rc =? 0); reflexivity.
  - reflexivity.
Qed.

(** The locator only ever launches version queries, and touches neither the
    page nor the session. *)
Lemma check_ffmpeg_from_frame env paths :
  forall w,
  let w' := (check_ffmpeg_from env paths w).2 in
  ui w' = ui w /\ session w' = session w
  /\ exists qs, launched w' = launched w ++ qs
                /\ Forall (fun argv => is_version_query argv = true) qs.
Proof.
  induction paths as [|p rest IH]; intros w.
  - cbn. repeat split. exists []. rewrite app_nil_r. split; [reflexivity|constructor].
  - cbn zeta. rewrite check_ffmpeg_from_step. cbn zeta.
    set (w1 := mkWorld _ _ _ _).
    assert (Hstop : forall r : Result (option string),
              ui (r, w1).2 = ui w /\ session (r, w1).2 = session w
              /\ exists qs, launched (r, w1).2 = launched w ++ qs
                            /\ Forall (fun argv => is_version_query argv = true) qs).
    { intros r. cbn. repeat split. exists [[p; "-version"]].
      split; [reflexivity | repeat constructor]. }
    assert (Hgo : ui (check_ffmpeg_from env rest w1).2 = ui w
              /\ session (check_ffmpeg_from env rest w1).2 = session w
              /\ exists qs, launched (check_ffmpeg_from env rest w1).2 = launched w ++ qs
                            /\ Forall (fun argv => is_version_query argv = true) qs).
    { destruct (IH w1) as (Hu & Hs & qs & Hl & Hq). cbn zeta in *.
      rewrite Hu, Hs, Hl. cbn. repeat split.
      exists ([p; "-version"] :: qs). rewrite <- app_assoc.
      split; [reflexivity | constructor; [reflexivity | exact Hq]]. }
    destruct ((spawn env [p; "-version"] (fs w)).1) as [rc so se|e].
    + destruct (rc =? 0); [apply Hstop | exact Hgo].
    + destruct (except_probe e); [exact Hgo | apply Hstop].
Qed.

(** When the queries exit or are not found, the locator returns the first
    candidate that exits with status zero, or [None]. *)
Lemma check_ffmpeg_from_first_working env paths :
  forall w, queries_exit_or_not_found env paths (fs w) ->
  (check_ffmpeg_from env paths w).1 = Ret (first_working env paths (fs w)).
Proof.
  induction paths as [|p rest IH]; intros w H; [reflexivity|].
  rewrite check_ffmpeg_from_step. cbn zeta. cbn [queries_exit_or_not_found first_working] in *.
  destruct (spawn env [p; "-version"] (fs w)) as [[rc so se|e] f']; cbn [fst snd].
  - destruct (rc =? 0); [reflexivity|]. apply (IH (mkWorld f' _ _ _)). exact H.
  - destruct H as [-> H]. apply (IH (mkWorld f' _ _ _)). exact H.
Qed.

(** On the first run of the page with no tool found, [main] reports the
    blocking error with the installation guidance and returns: the upload
    and convert surface is not reached. *)
Lemma main_tool_not_found env inp w w1 :
  ffmpeg_checked (session w) = None ->
  check_ffmpeg env
    (mkWorld (fs w) (ui w ++ page_top ++ [st_spinner "FFmpegを確認中..."])
             (mkSession (Some false) (Some None)) (launched w))
  = (Ret None, w1) ->
  main env inp w
  = (Ret tt,
     mkWorld (fs w1)
       (ui w ++ page_top ++ [st_spinner "FFmpegを確認中..."] ++ not_found_report)
       (mkSession (Some true) (Some None)) (launched w1)).
Proof.
  intros Hfirst Hcheck.
  pose proof (check_ffmpeg_from_frame env ffmpeg_paths
                (mkWorld (fs w) (ui w ++ page_top ++ [st_spinner "FFmpegを確認中..."])
                         (mkSession (Some false) (Some None)) (launched w)))
    as (Hu & _).
  cbn zeta in Hu. fold (check_ffmpeg env) in Hu.
  rewrite Hcheck in Hu. cbn [snd ui] in Hu.
  unfold main.
  unfold bind, st, get_session, put_session, session_ffmpeg_checked,
    session_ffmpeg_path, ret, raise. cbn. rewrite Hfirst. cbn.
  unfold page_top in Hcheck. cbn in Hcheck.
  rewrite <- !app_assoc. cbn [app]. rewrite Hcheck. cbn.
  rewrite Hu. unfold page_top, not_found_report. cbn.
  rewrite <- !app_assoc. reflexivity.
Qed.

(** On a later run the stored result is used: nothing is launched. *)
Lemma main_tool_not_found_again env inp w :
  session w = mkSession (Some true) (Some None) ->
  main env inp w
  = (Ret tt, mkWorld (fs w) (ui w ++ page_top ++ not_found_report)
                     (session w) (launched w)).
Proof.
  intros Hs. unfold main.
  unfold bind, st, get_session, put_session, session_ffmpeg_checked,
    session_ffmpeg_path, ret, raise. cbn. rewrite Hs. cbn.
  unfold page_top, not_found_report. rewrite <- !app_assoc. reflexivity.
Qed.

(** C5 fails on the code.  With ffmpeg unpacked next to the application,
    so that [../ffmpeg] is a directory and [../ffmpeg/bin/ffmpeg] runs, the
    third candidate raises [PermissionError], which [check_ffmpeg] does not
    catch: it raises instead of trying the last two candidates, of which the
    fifth would have answered the version query with status zero. *)
Theorem check_ffmpeg_stops_at_directory :
  let r := check_ffmpeg Scenario.unpacked_env Scenario.unpacked_world in
  r.1 = Raise (mkExn PermissionError "[Errno 13] Permission denied: '../ffmpeg'")
  /\ launched r.2 = [ ["ffmpeg"; "-version"];
                      ["../ffmpeg.exe"; "-version"];
                      ["../ffmpeg"; "-version"] ]
  /\ (spawn Scenario.unpacked_env ["../ffmpeg/bin/ffmpeg"; "-version"]
            (fs Scenario.unpacked_world)).1
     = Exited 0 "ffmpeg version 6.0" ""
  /\ first_working Scenario.unpacked_env ffmpeg_paths (fs Scenario.unpacked_world)
     = Some "../ffmpeg/bin/ffmpeg".
Proof. vm_compute. repeat split; reflexivity. Qed.

(** The page then dies with the exception: no report, no guidance. *)
Example main_stops_at_directory :
  let r := main Scenario.unpacked_env (mkInput None [] false) Scenario.unpacked_world in
  exn_class <$> (match r.1 with Raise e => Some e | Ret _ => None end)
  = Some PermissionError
  /\ ui r.2 = page_top ++ [st_spinner "FFmpegを確認中..."].
Proof. vm_compute. split; reflexivity. Qed.

(** With ffmpeg on the PATH the first candidate is returned. *)
Example check_ffmpeg_on_path :
  (check_ffmpeg Scenario.copy_tool Scenario.world0).1 = Ret (Some "ffmpeg").
Proof. vm_compute. reflexivity. Qed.

(** * Further properties of the code *)

(** ** The tool locator, case by case *)

Lemma version_queries_app a b :
  version_queries (a ++ b) = version_queries a ++ version_queries b.
Proof. apply List.map_app. Qed.

(** The loop of [check_ffmpeg] ends in one of three ways: every candidate
    was queried and none answered; a candidate answered with status zero,
    after the ones before it were queried; or a query raised something the
    loop does not catch. *)
Lemma check_ffmpeg_from_cases env paths :
  forall w,
  let r := check_ffmpeg_from env paths w in
  (r.1 = Ret None /\ launched r.2 = launched w ++ version_queries paths)
  \/ (exists before p after f so se,
        paths = before ++ p :: after
        /\ r.1 = Ret (Some p)
        /\ launched r.2 = launched w ++ version_queries (before ++ [p])
        /\ spawn env [p; "-version"] f = (Exited 0 so se, fs r.2))
  \/ (exists before p after f e,
        paths = before ++ p :: after
        /\ r.1 = Raise e
        /\ except_probe e = false
        /\ launched r.2 = launched w ++ version_queries (before ++ [p])
        /\ spawn env [p; "-version"] f = (RunRaised e, fs r.2)).
Proof.
  induction paths as [|p rest IH]; intros w.
  - left. cbn. rewrite app_nil_r. split; reflexivity.
  - cbn zeta. rewrite check_ffmpeg_from_step. cbn zeta.
    set (w1 := mkWorld _ _ _ _).
    assert (Hgo :
      let r := check_ffmpeg_from env rest w1 in
      (r.1 = Ret None /\ launched r.2 = launched w ++ version_queries (p :: rest))
      \/ (exists before q after f so se,
            p :: rest = before ++ q :: after
            /\ r.1 = Ret (Some q)
            /\ launched r.2 = launched w ++ version_queries (before ++ [q])
            /\ spawn env [q; "-version"] f = (Exited 0 so se, fs r.2))
      \/ (exists before q after f e,
            p :: rest = before ++ q :: after
            /\ r.1 = Raise e
            /\ except_probe e = false
            /\ launched r.2 = launched w ++ version_queries (before ++ [q])
            /\ spawn env [q; "-version"] f = (RunRaised e, fs r.2))).
    { cbn zeta.
      destruct (IH w1) as [[Hn Hl] | [(b & q & a & f & so & se & Hp & Hr & Hl & Hs)
                                     | (b & q & a & f & e & Hp & Hr & He & Hl & Hs)]].
      - left. split; [exact Hn|]. rewrite Hl. unfold w1. cbn [launched].
        rewrite <- app_assoc. reflexivity.
      - right. left. exists (p :: b), q, a, f, so, se.
        split; [rewrite Hp; reflexivity|]. split; [exact Hr|].
        split; [|exact Hs]. rewrite Hl. unfold w1. cbn [launched].
        rewrite <- app_assoc. reflexivity.
      - right. right. exists (p :: b), q, a, f, e.
        split; [rewrite Hp; reflexivity|]. split; [exact Hr|]. split; [exact He|].
        split; [|exact Hs]. rewrite Hl. unfold w1. cbn [launched].
        rewrite <- app_assoc. reflexivity. }
    destruct (spawn env [p; "-version"] (fs w)) as [[rc so se|e] f'] eqn:Hsp;
      cbn [fst snd] in *.
    + destruct (rc =? 0) eqn:Hrc; [|exact Hgo].
      apply Z.eqb_eq in Hrc. subst rc.
      right. left. exists [], p, rest, (fs w), so, se.
      repeat split. exact Hsp.
    + destruct (except_probe e) eqn:He; [exact Hgo|].
      right. right. exists [], p, rest, (fs w), e.
      repeat split; [exact He | exact Hsp].
Qed.

(** X1. When every version query, up to the first that succeeds, exits or
    raises [FileNotFoundError] or [CalledProcessError], [check_ffmpeg]
    returns the first candidate of its list whose query exits with status
    zero, and [None] when there is none. *)
Theorem locator_returns_first_working env w :
  queries_exit_or_not_found env ffmpeg_paths (fs w) ->
  (check_ffmpeg env w).1 = Ret (first_working env ffmpeg_paths (fs w)).
Proof. intros H. apply check_ffmpeg_from_first_working. exact H. Qed.

Lemma locator_returns_first_working_witness :
  (check_ffmpeg Scenario.unpacked_env sibling_world).1
  = Ret (first_working Scenario.unpacked_env ffmpeg_paths (fs sibling_world)).
Proof.
  apply (locator_returns_first_working Scenario.unpacked_env sibling_world).
  vm_compute. repeat split.
Defined.

Example locator_finds_sibling :
  (check_ffmpeg Scenario.unpacked_env sibling_world).1 = Ret (Some "../ffmpeg")
  /\ first_working Scenario.unpacked_env ffmpeg_paths (fs sibling_world)
     = Some "../ffmpeg".
Proof. vm_compute. split; reflexivity. Qed.

Lemma take_middle (before : list string) p after :
  take (S (List.length before)) (before ++ p :: after) = before ++ [p].
Proof. induction before as [|x b IH]; cbn; [reflexivity | f_equal; exact IH]. Qed.

(** X2. Whatever the candidates do, [check_ffmpeg] shows nothing on the
    page, leaves the session as it is, and launches only version queries:
    those of the first k candidates of its list, in the order of the list,
    for some k between one and five. *)
Theorem locator_queries_a_prefix env w :
  let w' := (check_ffmpeg env w).2 in
  ui w' = ui w
  /\ session w' = session w
  /\ exists k, (1 <= k <= 5)%nat
       /\ launched w' = launched w ++ version_queries (take k ffmpeg_paths).
Proof.
  cbn zeta.
  destruct (check_ffmpeg_from_frame env ffmpeg_paths w) as (Hu & Hs & _).
  split; [exact Hu|]. split; [exact Hs|].
  assert (Hlen : forall (b : list string) p a,
            ffmpeg_paths = b ++ p :: a -> (1 <= S (List.length b) <= 5)%nat).
  { intros b p a E. apply (f_equal (@List.length string)) in E.
    rewrite length_app in E. cbn in E. lia. }
  destruct (check_ffmpeg_from_cases env ffmpeg_paths w)
    as [[_ Hl] | [(b & p & a & f & so & se & Hp & _ & Hl & _)
                 | (b & p & a & f & e & Hp & _ & _ & Hl & _)]].
  - exists 5%nat. split; [lia|]. exact Hl.
  - exists (S (List.length b)). split; [exact (Hlen b p a Hp)|].
    unfold check_ffmpeg. rewrite Hl. f_equal. f_equal.
    rewrite Hp. symmetry. apply take_middle.
  - exists (S (List.length b)). split; [exact (Hlen b p a Hp)|].
    unfold check_ffmpeg. rewrite Hl. f_equal. f_equal.
    rewrite Hp. symmetry. apply take_middle.
Qed.

(** X3. A candidate that [check_ffmpeg] returns is one of its list, and its
    version query, the last process launched, did exit with status zero. *)
Theorem locator_found_answered env w p :
  (check_ffmpeg env w).1 = Ret (Some p) ->
  let w' := (check_ffmpeg env w).2 in
  In p ffmpeg_paths
  /\ (exists f so se, spawn env [p; "-version"] f = (Exited 0 so se, fs w'))
  /\ last (launched w') = Some [p; "-version"].
Proof.
  intros Hret. cbn zeta. unfold check_ffmpeg in *.
  destruct (check_ffmpeg_from_cases env ffmpeg_paths w)
    as [[Hn _] | [(b & q & a & f & so & se & Hp & Hr & Hl & Hs)
                 | (b & q & a & f & e & _ & Hr & _)]].
  - rewrite Hn in Hret. discriminate.
  - rewrite Hr in Hret. injection Hret as ->.
    split; [rewrite Hp; apply in_or_app; right; left; reflexivity|].
    split; [exists f, so, se; exact Hs|].
    rewrite Hl, version_queries_app, app_assoc. apply last_snoc.
  - rewrite Hr in Hret. discriminate.
Qed.

Lemma locator_found_answered_witness :
  In "../ffmpeg" ffmpeg_paths
  /\ (exists f so se,
        spawn Scenario.unpacked_env ["../ffmpeg"; "-version"] f
        = (Exited 0 so se, fs (check_ffmpeg Scenario.unpacked_env sibling_world).2))
  /\ last (launched (check_ffmpeg Scenario.unpacked_env sibling_world).2)
     = Some ["../ffmpeg"; "-version"].
Proof.
  apply (locator_found_answered Scenario.unpacked_env sibling_world "../ffmpeg").
  vm_compute. reflexivity.
Defined.

Lemma locator_not_found_tried_all_aux env w :
  (check_ffmpeg env w).1 = Ret None ->
  launched (check_ffmpeg env w).2 = launched w ++ version_queries ffmpeg_paths.
Proof.
  intros Hret. unfold check_ffmpeg in *.
  destruct (check_ffmpeg_from_cases env ffmpeg_paths w)
    as [[_ Hl] | [(b & q & a & f & so & se & _ & Hr & _)
                 | (b & q & a & f & e & _ & Hr & _)]].
  - exact Hl.
  - rewrite Hr in Hret. discriminate.
  - rewrite Hr in Hret. discriminate.
Qed.

(** X4. [check_ffmpeg] returns [None] only when it has queried all five
    candidates, each once and in the order of the list. *)
Theorem locator_not_found_tried_all env w :
  (check_ffmpeg env w).1 = Ret None ->
  launched (check_ffmpeg env w).2 = launched w ++ version_queries ffmpeg_paths.
Proof.
  intros Hret. unfold check_ffmpeg in *.
  destruct (check_ffmpeg_from_cases env ffmpeg_paths w)
    as [[_ Hl] | [(b & q & a & f & so & se & _ & Hr & _)
                 | (b & q & a & f & e & _ & Hr & _)]].
  - exact Hl.
  - rewrite Hr in Hret. discriminate.
  - rewrite Hr in Hret. discriminate.
Qed.

Lemma locator_not_found_tried_all_witness :
  launched (check_ffmpeg Scenario.unpacked_env bare_world).2
  = launched bare_world ++ version_queries ffmpeg_paths.
Proof.
  apply (locator_not_found_tried_all Scenario.unpacked_env bare_world).
  vm_compute. reflexivity.
Defined.

(** X5. An exception that leaves [check_ffmpeg] was raised by the launch of
    one of its candidates and is neither a [CalledProcessError] nor a
    [FileNotFoundError]: a query that exits with a non-zero status or whose
    executable is missing never stops the search. *)
Theorem locator_raises_uncaught_only env w e :
  (check_ffmpeg env w).1 = Raise e ->
  except_probe e = false
  /\ exists p f f', In p ffmpeg_paths
       /\ spawn env [p; "-version"] f = (RunRaised e, f').
Proof.
  intros Hret. unfold check_ffmpeg in *.
  destruct (check_ffmpeg_from_cases env ffmpeg_paths w)
    as [[Hn _] | [(b & q & a & f & so & se & _ & Hr & _)
                 | (b & q & a & f & e' & Hp & Hr & He & _ & Hs)]].
  - rewrite Hn in Hret. discriminate.
  - rewrite Hr in Hret. discriminate.
  - rewrite Hr in Hret. injection Hret as ->.
    split; [exact He|]. exists q, f, (fs (check_ffmpeg_from env ffmpeg_paths w).2).
    split; [rewrite Hp; apply in_or_app; right; left; reflexivity | exact Hs].
Qed.

Lemma locator_raises_uncaught_only_witness :
  except_probe (mkExn PermissionError "[Errno 13] Permission denied: '../ffmpeg'")
  = false
  /\ exists p f f', In p ffmpeg_paths
       /\ spawn Scenario.unpacked_env [p; "-version"] f
          = (RunRaised (mkExn PermissionError
                          "[Errno 13] Permission denied: '../ffmpeg'"), f').
Proof.
  apply (locator_raises_uncaught_only Scenario.unpacked_env Scenario.unpacked_world).
  vm_compute. reflexivity.
Defined.

(** ** What [convert_files] launches *)

Lemma item_outcome_cmds env T q ff f f0 :
  let cmds := (item_outcome env (truediv (Path T) "input") (truediv (Path T) "output")
                            q ff f f0).2 in
  cmds = [] \/ cmds = [conversion_of T q ff f].
Proof.
  cbn zeta. unfold item_outcome. destruct (bool_decide _); [left; reflexivity|].
  destruct (open_wb_error env _ f0); [left; reflexivity|].
  destruct (spawn env _ _) as [o f2]. right. reflexivity.
Qed.

Lemma batch_outcome_cmds env T q ff items :
  forall f0,
  (batch_outcome env (truediv (Path T) "input") (truediv (Path T) "output")
                 q ff items f0).2
  `sublist_of` List.map (conversion_of T q ff) items.
Proof.
  induction items as [|f items IH]; intros f0; [constructor|].
  cbn [batch_outcome List.map].
  pose proof (item_outcome_cmds env T q ff f f0) as H1. cbn zeta in H1.
  destruct (item_outcome env _ _ q ff f f0) as [[r f1] c1].
  specialize (IH f1).
  destruct (batch_outcome env _ _ q ff items f1) as [[rs f2] c2].
  cbn [snd] in *. destruct H1 as [-> | ->]; cbn [app].
  - apply sublist_cons. exact IH.
  - apply sublist_skip. exact IH.
Qed.

Lemma offer_download_frame env converted w :
  let w' := (offer_download env converted w).2 in
  fs w' = fs w /\ session w' = session w /\ launched w' = launched w.
Proof.
  cbn zeta. rewrite offer_download_run. destruct converted as [|p [|p2 rest]].
  - repeat split.
  - cbn zeta. destruct (open_rb_read p _) as [[b|e] w']; repeat split.
  - repeat split.
Qed.

(** Without any assumption on the temporary directory. *)
Lemma convert_files_frame env items q ff w :
  let T := mkdtemp env (fs w) in
  let w' := (convert_files env items q ff w).2 in
  session w' = session w
  /\ exists cmds, launched w' = launched w ++ cmds
       /\ cmds `sublist_of` List.map (conversion_of T q ff) items.
Proof.
  intros T. cbn zeta.
  unfold convert_files, with_TemporaryDirectory, convert_files_in. fold T.
  unfold bind. rewrite batch_report_run. cbn zeta.
  destruct (path_exists _ (fs (enter_tmp T w))).
  { cbn. split; [reflexivity|]. exists []. rewrite app_nil_r.
    split; [reflexivity | apply sublist_nil_l]. }
  destruct (path_exists _ _).
  { cbn. split; [reflexivity|]. exists []. rewrite app_nil_r.
    split; [reflexivity | apply sublist_nil_l]. }
  pose proof (batch_outcome_cmds env T q ff items
                (mkFS (files (fs (enter_tmp T w)))
                      ({[ path_str (truediv (Path T) "output") ]}
                       ∪ ({[ path_str (truediv (Path T) "input") ]}
                          ∪ dirs (fs (enter_tmp T w)))))) as Hsub.
  destruct (batch_outcome env _ _ q ff items _) as [[rs f1] cmds].
  cbn [snd converted_files] in *.
  match goal with
  | |- context [offer_download env ?c ?w1] =>
      destruct (offer_download_frame env c w1) as (_ & Hs & Hl);
      destruct (offer_download env c w1) as [r w2]
  end.
  cbn [snd session launched leave_tmp enter_tmp] in *.
  split; [exact Hs|]. exists cmds. split; [exact Hl | exact Hsub].
Qed.

(** X6. Whatever the tool and the disk do, [convert_files] leaves the
    session as it is and launches nothing but conversions of the uploaded
    items: the commands it launches are, in input order, those of some of
    the items, each at most once, with the given bitrate and tool.  In
    particular it launches at most N processes and no version query. *)
Theorem convert_files_launches_conversions env items q ff w :
  let T := mkdtemp env (fs w) in
  let w' := (convert_files env items q ff w).2 in
  session w' = session w
  /\ exists cmds, launched w' = launched w ++ cmds
       /\ cmds `sublist_of` List.map (conversion_of T q ff) items
       /\ (List.length cmds <= List.length items)%nat
       /\ Forall (fun c => is_version_query c = false) cmds.
Proof.
  intros T. cbn zeta.
  destruct (convert_files_frame env items q ff w) as (Hs & cmds & Hl & Hsub).
  fold T in Hsub. split; [exact Hs|]. exists cmds.
  split; [exact Hl|]. split; [exact Hsub|]. split.
  - apply sublist_length in Hsub. rewrite length_map in Hsub. exact Hsub.
  - apply Forall_forall. intros c Hc.
    pose proof (elem_of_sublist _ _ _ Hc Hsub) as Hin.
    apply (proj1 (list_elem_of_In _ _)), in_map_iff in Hin.
    destruct Hin as (f & <- & _). reflexivity.
Qed.

(** ** The page *)

Lemma list_uploads_frame files :
  forall i w, exists evs,
    list_uploads i files w
    = (Ret tt, mkWorld (fs w) (ui w ++ evs) (session w) (launched w)).
Proof.
  induction files as [|f files IH]; intros i w.
  - exists []. destruct w. cbn. rewrite app_nil_r. reflexivity.
  - cbn [list_uploads]. unfold bind at 1. unfold st at 1.
    destruct (IH (S i) (mkWorld (fs w)
                (ui w ++ [st_write ("**" +:+ PyStr.of_nat (i + 1) +:+ ".** " +:+ name f
                                    +:+ " (" +:+ fmt_thousands (List.length (data f))
                                    +:+ " bytes)")])
                (session w) (launched w))) as [evs ->].
    cbn [fs ui session launched]. eexists. rewrite <- app_assoc. reflexivity.
Qed.

Lemma selectbox_value_preset choice : In (selectbox_value presets 1 choice) presets.
Proof.
  destruct choice as [k|]; [|cbn; tauto].
  do 4 (destruct k as [|k]; [cbn; tauto|]). cbn. destruct k; cbn; tauto.
Qed.

(** What the part of [main] after the tool was located launches. *)
Lemma after_location_frame env inp located w :
  exists r w',
    after_location env inp located w = (r, w')
    /\ session w' = session w
    /\ exists cmds, launched w' = launched w ++ cmds
         /\ cmds `sublist_of` List.map (conversion_of (mkdtemp env (fs w))
                                          (quality_of inp) (fmt_opt located))
                                       (uploads inp)
         /\ (truthy located = false \/ uploads inp = []
             \/ convert_clicked inp = false -> cmds = []).
Proof.
  unfold after_location.
  assert (Hnone : forall u,
            exists r w',
              (Ret tt, mkWorld (fs w) u (session w) (launched w)) = (r, w')
              /\ session w' = session w
              /\ exists cmds,
                   launched w' = launched w ++ cmds
                   /\ cmds `sublist_of`
                        List.map (conversion_of (mkdtemp env (fs w)) (quality_of inp)
                                                (fmt_opt located)) (uploads inp)
                   /\ (truthy located = false \/ uploads inp = []
                       \/ convert_clicked inp = false -> cmds = [])).
  { intros u. do 2 eexists. split; [reflexivity|]. cbn [session launched].
    split; [reflexivity|]. exists []. rewrite app_nil_r.
    split; [reflexivity|]. split; [apply sublist_nil_l | reflexivity]. }
  destruct (truthy located) eqn:Ht; cbn [negb].
  2:{ unfold bind, st. cbn [fs ui session launched]. apply Hnone. }
  unfold bind at 1. unfold st at 1. unfold bind at 1. unfold st at 1.
  unfold bind at 1. unfold st at 1. cbn [fs ui session launched].
  destruct (uploads inp) as [|f files] eqn:Hup.
  { unfold ret. apply Hnone. }
  unfold bind at 1. unfold st at 1. cbn [fs ui session launched].
  unfold bind at 1.
  match goal with
  | |- context [list_uploads ?i ?l ?w0] =>
      destruct (list_uploads_frame l i w0) as [evs ->]
  end.
  cbn [fs ui session launched].
  unfold bind at 1. unfold st at 1. cbn [fs ui session launched].
  destruct (convert_clicked inp) eqn:Hclick.
  2:{ unfold ret. apply Hnone. }
  match goal with
  | |- context [convert_files env ?items ?q ?ff ?w0] =>
      destruct (convert_files_frame env items q ff w0) as (Hs & cmds & Hl & Hsub);
      destruct (convert_files env items q ff w0) as [r w2]
  end.
  cbn [fst snd fs ui session launched] in *.
  exists r, w2. split; [reflexivity|].
  split; [exact Hs|]. exists cmds. split; [exact Hl|]. split; [exact Hsub|].
  intros [H | [H | H]]; discriminate.
Qed.

(** [main] when the session already holds the result of the search. *)
Lemma main_stored_run env inp w located :
  session w = mkSession (Some true) (Some located) ->
  main env inp w
  = after_location env inp located
      (mkWorld (fs w) (ui w ++ page_top) (session w) (launched w)).
Proof.
  intros Hs. unfold main.
  unfold bind at 1. unfold st at 1. unfold bind at 1. unfold st at 1.
  unfold bind at 1. unfold st at 1. unfold bind at 1. unfold st at 1.
  unfold bind at 1. unfold st at 1. cbn [fs ui session launched].
  unfold bind at 1. unfold get_session at 1. cbn [fs ui session launched].
  rewrite Hs. cbn [ffmpeg_checked].
  unfold bind at 1. unfold ret at 1.
  unfold bind at 1. unfold session_ffmpeg_checked at 1. unfold bind at 1.
  unfold get_session at 1. cbn [fs ui session launched ffmpeg_checked].
  unfold ret at 1. cbn [negb].
  unfold bind at 1. unfold ret at 1.
  unfold bind at 1. unfold session_ffmpeg_path at 1. unfold bind at 1.
  unfold get_session at 1. cbn [fs ui session launched ffmpeg_path].
  unfold ret at 1. unfold page_top. rewrite <- !app_assoc. reflexivity.
Qed.

(** [main] when the session holds nothing yet. *)
Lemma main_first_run env inp w :
  ffmpeg_checked (session w) = None ->
  main env inp w
  = match check_ffmpeg env (probe_world w) with
    | (Ret found, w1) =>
        after_location env inp found
          (mkWorld (fs w1) (ui w1) (mkSession (Some true) (Some found)) (launched w1))
    | (Raise e, w1) => (Raise e, w1)
    end.
Proof.
  intros Hs. unfold main.
  unfold bind at 1. unfold st at 1. unfold bind at 1. unfold st at 1.
  unfold bind at 1. unfold st at 1. unfold bind at 1. unfold st at 1.
  unfold bind at 1. unfold st at 1. cbn [fs ui session launched].
  unfold bind at 1. unfold get_session at 1. cbn [fs ui session launched].
  rewrite Hs.
  unfold bind at 1. unfold put_session at 1. cbn [fs ui session launched].
  unfold bind at 1. unfold session_ffmpeg_checked at 1. unfold bind at 1.
  unfold get_session at 1. cbn [fs ui session launched ffmpeg_checked].
  unfold ret at 1. cbn [negb].
  unfold bind at 1. unfold bind at 1. unfold st at 1. cbn [fs ui session launched].
  unfold bind at 1.
  replace (mkWorld (fs w) _ _ (launched w)) with (probe_world w)
    by (unfold probe_world, page_top; rewrite <- !app_assoc; reflexivity).
  destruct (check_ffmpeg env (probe_world w)) as [[found|e] w1]; [|reflexivity].
  unfold bind at 1. unfold get_session at 1.
  unfold bind at 1. unfold put_session at 1. cbn [fs ui session launched].
  unfold bind at 1. unfold get_session at 1.
  unfold put_session at 1. cbn [fs ui session launched ffmpeg_path].
  unfold bind at 1. unfold session_ffmpeg_path at 1. unfold bind at 1.
  unfold get_session at 1. cbn [fs ui session launched ffmpeg_path].
  unfold ret at 1. reflexivity.
Qed.

(** [main] when an earlier run stopped in the search: it searches again. *)
Lemma main_search_again env inp w :
  ffmpeg_checked (session w) = Some false ->
  main env inp w
  = match check_ffmpeg env
            (mkWorld (fs w) (ui w ++ page_top ++ [st_spinner "FFmpegを確認中..."])
                     (session w) (launched w)) with
    | (Ret found, w1) =>
        after_location env inp found
          (mkWorld (fs w1) (ui w1) (mkSession (Some true) (Some found)) (launched w1))
    | (Raise e, w1) => (Raise e, w1)
    end.
Proof.
  intros Hs. unfold main.
  unfold bind at 1. unfold st at 1. unfold bind at 1. unfold st at 1.
  unfold bind at 1. unfold st at 1. unfold bind at 1. unfold st at 1.
  unfold bind at 1. unfold st at 1. cbn [fs ui session launched].
  unfold bind at 1. unfold get_session at 1. cbn [fs ui session launched].
  rewrite Hs.
  unfold bind at 1. unfold ret at 1.
  unfold bind at 1. unfold session_ffmpeg_checked at 1. unfold bind at 1.
  unfold get_session at 1. cbn [fs ui session launched]. rewrite Hs.
  unfold ret at 1. cbn [negb].
  unfold bind at 1. unfold bind at 1. unfold st at 1. cbn [fs ui session launched].
  unfold bind at 1.
  match goal with
  | |- context [check_ffmpeg env (mkWorld (fs w) ?u (session w) (launched w))] =>
      replace u with (ui w ++ page_top ++ [st_spinner "FFmpegを確認中..."])
        by (unfold page_top; rewrite <- !app_assoc; reflexivity)
  end.
  destruct (check_ffmpeg env _) as [[found|e] w1]; [|reflexivity].
  unfold bind at 1. unfold get_session at 1.
  unfold bind at 1. unfold put_session at 1. cbn [fs ui session launched].
  unfold bind at 1. unfold get_session at 1.
  unfold put_session at 1. cbn [fs ui session launched ffmpeg_path].
  unfold bind at 1. unfold session_ffmpeg_path at 1. unfold bind at 1.
  unfold get_session at 1. cbn [fs ui session launched ffmpeg_path].
  unfold ret at 1. reflexivity.
Qed.

(** [main] in a session that says the search was done and holds no result:
    reading the missing attribute raises. *)
Lemma main_missing_attribute env inp w :
  ffmpeg_checked (session w) = Some true -> ffmpeg_path (session w) = None ->
  launched (main env inp w).2 = launched w.
Proof.
  intros Hc Hp. unfold main.
  unfold bind at 1. unfold st at 1. unfold bind at 1. unfold st at 1.
  unfold bind at 1. unfold st at 1. unfold bind at 1. unfold st at 1.
  unfold bind at 1. unfold st at 1. cbn [fs ui session launched].
  unfold bind at 1. unfold get_session at 1. cbn [fs ui session launched].
  rewrite Hc.
  unfold bind at 1. unfold ret at 1.
  unfold bind at 1. unfold session_ffmpeg_checked at 1. unfold bind at 1.
  unfold get_session at 1. cbn [fs ui session launched]. rewrite Hc.
  unfold ret at 1. cbn [negb].
  unfold bind at 1. unfold ret at 1.
  unfold bind at 1. unfold session_ffmpeg_path at 1. unfold bind at 1.
  unfold get_session at 1. cbn [fs ui session launched]. rewrite Hp.
  reflexivity.
Qed.

Lemma conversions_not_queries T q ff items (cmds : list (list string)) :
  cmds `sublist_of` List.map (conversion_of T q ff) items ->
  Forall (fun c => is_version_query c = false) cmds.
Proof.
  intros Hsub. apply Forall_forall. intros c Hc.
  pose proof (elem_of_sublist _ _ _ Hc Hsub) as Hin.
  apply (proj1 (list_elem_of_In _ _)), in_map_iff in Hin.
  destruct Hin as (f & <- & _). reflexivity.
Qed.

(** Every run of [main] launches version queries first, if any, and then
    conversions, if any; the latter only after a click with uploads. *)
Lemma main_launches env inp w :
  exists qs cmds,
    launched (main env inp w).2 = launched w ++ qs ++ cmds
    /\ Forall (fun c => is_version_query c = true) qs
    /\ Forall (fun c => is_version_query c = false) cmds
    /\ (uploads inp = [] \/ convert_clicked inp = false -> cmds = []).
Proof.
  assert (Hprobe : forall w0,
            launched w0 = launched w ->
            exists qs cmds,
              launched (match check_ffmpeg env w0 with
                        | (Ret found, w1) =>
                            after_location env inp found
                              (mkWorld (fs w1) (ui w1)
                                 (mkSession (Some true) (Some found)) (launched w1))
                        | (Raise e, w1) => (Raise e, w1)
                        end).2 = launched w ++ qs ++ cmds
              /\ Forall (fun c => is_version_query c = true) qs
              /\ Forall (fun c => is_version_query c = false) cmds
              /\ (uploads inp = [] \/ convert_clicked inp = false -> cmds = [])).
  { intros w0 Hw0.
    destruct (check_ffmpeg_from_frame env ffmpeg_paths w0) as (_ & _ & qs & Hl & Hq).
    cbn zeta in Hl. fold (check_ffmpeg env) in Hl. rewrite Hw0 in Hl.
    destruct (check_ffmpeg env w0) as [[found|e] w1]; cbn [snd] in Hl.
    - destruct (after_location_frame env inp found
                  (mkWorld (fs w1) (ui w1) (mkSession (Some true) (Some found))
                           (launched w1)))
        as (r & w' & -> & _ & cmds & Hc & Hsub & Hnone).
      cbn [snd launched] in *. exists qs, cmds. rewrite Hc, Hl, <- app_assoc.
      split; [reflexivity|]. split; [exact Hq|].
      split; [exact (conversions_not_queries _ _ _ _ _ Hsub)|].
      intros H. apply Hnone. tauto.
    - exists qs, []. cbn [snd]. rewrite app_nil_r.
      split; [exact Hl|]. split; [exact Hq|]. split; [constructor | reflexivity]. }
  destruct (ffmpeg_checked (session w)) as [[|]|] eqn:Hc.
  - destruct (ffmpeg_path (session w)) as [located|] eqn:Hp.
    + assert (Hs : session w = mkSession (Some true) (Some located))
        by (destruct (session w); cbn in *; congruence).
      rewrite (main_stored_run env inp w located Hs).
      destruct (after_location_frame env inp located
                  (mkWorld (fs w) (ui w ++ page_top) (session w) (launched w)))
        as (r & w' & -> & _ & cmds & Hl & Hsub & Hnone).
      cbn [snd launched] in *. exists [], cmds.
      split; [exact Hl|]. split; [constructor|].
      split; [exact (conversions_not_queries _ _ _ _ _ Hsub)|].
      intros H. apply Hnone. tauto.
    + exists [], []. rewrite (main_missing_attribute env inp w Hc Hp), app_nil_r.
      split; [reflexivity|]. split; [constructor|]. split; [constructor | reflexivity].
  - rewrite (main_search_again env inp w Hc). apply Hprobe. reflexivity.
  - rewrite (main_first_run env inp w Hc). apply Hprobe. reflexivity.
Qed.

(** X7. Unless the convert button was clicked with at least one file
    uploaded, a run of [main] launches no conversion: whatever the state of
    the session, the only processes it launches are version queries. *)
Theorem main_converts_only_on_click env inp w :
  uploads inp = [] \/ convert_clicked inp = false ->
  exists qs,
    launched (main env inp w).2 = launched w ++ qs
    /\ Forall (fun c => is_version_query c = true) qs.
Proof.
  intros H. destruct (main_launches env inp w) as (qs & cmds & Hl & Hq & _ & Hnone).
  exists qs. rewrite Hl, (Hnone H), app_nil_r. split; [reflexivity | exact Hq].
Qed.

Lemma main_converts_only_on_click_witness :
  exists qs,
    launched (main Scenario.copy_tool idle_input Scenario.world0).2
    = launched Scenario.world0 ++ qs
    /\ Forall (fun c => is_version_query c = true) qs.
Proof.
  apply (main_converts_only_on_click Scenario.copy_tool idle_input Scenario.world0).
  right. reflexivity.
Defined.

(** X8. Once the session holds the result of the search, [main] does not
    search again and does not touch the session: it launches no version
    query, and what it launches are conversions of uploaded files, in input
    order and each at most once, with the stored tool and with the selected
    bitrate, which is one of the four presets whatever the select box
    returns. *)
Theorem main_with_stored_location env inp w located :
  session w = mkSession (Some true) (Some located) ->
  let w' := (main env inp w).2 in
  session w' = session w
  /\ In (quality_of inp) presets
  /\ exists cmds,
       launched w' = launched w ++ cmds
       /\ cmds `sublist_of`
            List.map (conversion_of (mkdtemp env (fs w)) (quality_of inp)
                                    (fmt_opt located)) (uploads inp)
       /\ Forall (fun c => is_version_query c = false) cmds.
Proof.
  intros Hs. cbn zeta. rewrite (main_stored_run env inp w located Hs).
  destruct (after_location_frame env inp located
              (mkWorld (fs w) (ui w ++ page_top) (session w) (launched w)))
    as (r & w' & -> & Hsess & cmds & Hl & Hsub & _).
  cbn [snd fs session launched] in *.
  split; [exact Hsess|]. split; [apply selectbox_value_preset|].
  exists cmds. split; [exact Hl|]. split; [exact Hsub|].
  exact (conversions_not_queries _ _ _ _ _ Hsub).
Qed.

Lemma main_with_stored_location_witness :
  session (main Scenario.copy_tool eager_input returning_world).2
  = session returning_world
  /\ In (quality_of eager_input) presets
  /\ exists cmds,
       launched (main Scenario.copy_tool eager_input returning_world).2
       = launched returning_world ++ cmds
       /\ cmds `sublist_of`
            List.map (conversion_of (mkdtemp Scenario.copy_tool (fs returning_world))
                                    (quality_of eager_input) (fmt_opt (Some "ffmpeg")))
                     (uploads eager_input)
       /\ Forall (fun c => is_version_query c = false) cmds.
Proof.
  apply (main_with_stored_location Scenario.copy_tool eager_input returning_world
           (Some "ffmpeg")).
  reflexivity.
Defined.

Example stored_location_run :
  launched (main Scenario.copy_tool eager_input returning_world).2
  = List.map (conversion_of "/tmp/tmpk3" "320k" "ffmpeg") Scenario.three_files.
Proof. vm_compute. reflexivity. Qed.

(** X9. On the first run of the page, when the search returns [None],
    [main] returns after the blocking report, whatever was uploaded or
    clicked: the page shows its top, the spinner, the error and the
    installation guidance and nothing else, the session records that the
    search was done and found nothing, and the only processes launched are
    the five version queries. *)
Theorem main_blocks_without_tool env inp w :
  ffmpeg_checked (session w) = None ->
  (check_ffmpeg env (probe_world w)).1 = Ret None ->
  let r := main env inp w in
  r.1 = Ret tt
  /\ ui r.2 = ui w ++ page_top ++ [st_spinner "FFmpegを確認中..."] ++ not_found_report
  /\ session r.2 = mkSession (Some true) (Some None)
  /\ launched r.2 = launched w ++ version_queries ffmpeg_paths.
Proof.
  intros Hfirst Hnone. cbn zeta.
  pose proof (locator_not_found_tried_all_aux env (probe_world w) Hnone) as Hl.
  pose proof (check_ffmpeg_from_frame env ffmpeg_paths (probe_world w)) as (Hu & _).
  cbn zeta in Hu. fold (check_ffmpeg env) in Hu.
  rewrite (main_first_run env inp w Hfirst).
  destruct (check_ffmpeg env (probe_world w)) as [[found|e] w1];
    cbn [fst snd] in *; [|discriminate].
  injection Hnone as ->. unfold after_location, bind, st. cbn.
  rewrite Hu, Hl. unfold probe_world, not_found_report. cbn.
  rewrite <- !app_assoc. repeat split.
Qed.

Lemma main_blocks_without_tool_witness :
  (main Scenario.unpacked_env eager_input bare_world).1 = Ret tt
  /\ ui (main Scenario.unpacked_env eager_input bare_world).2
     = ui bare_world ++ page_top ++ [st_spinner "FFmpegを確認中..."] ++ not_found_report
  /\ session (main Scenario.unpacked_env eager_input bare_world).2
     = mkSession (Some true) (Some None)
  /\ launched (main Scenario.unpacked_env eager_input bare_world).2
     = launched bare_world ++ version_queries ffmpeg_paths.
Proof.
  apply (main_blocks_without_tool Scenario.unpacked_env eager_input bare_world).
  - reflexivity.
  - vm_compute. reflexivity.
Defined.

(** X10. On the first run of the page, when the search returns, its result
    is what the session holds afterwards, with the search marked as done,
    whatever the rest of the run does: a later run reads it from there. *)
Theorem main_stores_location env inp w found :
  ffmpeg_checked (session w) = None ->
  (check_ffmpeg env (probe_world w)).1 = Ret found ->
  session (main env inp w).2 = mkSession (Some true) (Some found).
Proof.
  intros Hfirst Hret. rewrite (main_first_run env inp w Hfirst).
  destruct (check_ffmpeg env (probe_world w)) as [[found'|e] w1];
    cbn [fst] in Hret; [|discriminate].
  injection Hret as ->.
  destruct (after_location_frame env inp found
              (mkWorld (fs w1) (ui w1) (mkSession (Some true) (Some found))
                       (launched w1)))
    as (r & w' & -> & Hs & _).
  exact Hs.
Qed.

Lemma main_stores_location_witness :
  session (main Scenario.copy_tool eager_input Scenario.world0).2
  = mkSession (Some true) (Some (Some "ffmpeg")).
Proof.
  apply (main_stores_location Scenario.copy_tool eager_input Scenario.world0
           (Some "ffmpeg")).
  - reflexivity.
  - vm_compute. reflexivity.
Defined.

(** ** More on the batch *)

Lemma batch_fs_keeps T f p :
  is_under T p = false -> path_exists p (batch_fs T f) = path_exists p f.
Proof.
  intros Hp. unfold path_exists, batch_fs. cbn [files dirs]. f_equal.
  apply bool_decide_ext. rewrite !elem_of_union, !elem_of_singleton.
  split; [|tauto].
  intros [-> | [-> | [-> | H]]]; [exfalso..|exact H].
  - rewrite (is_under_child T "output") in Hp by reflexivity. discriminate.
  - rewrite (is_under_child T "input") in Hp by reflexivity. discriminate.
  - rewrite (is_under_ext T T []) in Hp; [discriminate| |reflexivity].
    rewrite app_nil_r. destruct (Path T); reflexivity.
Qed.

(** X11. An empty batch, run in a new temporary directory, divides by
    nothing and converts nothing: [convert_files] returns normally, shows
    the empty progress bar and a report of 0 successes and 0 failures with
    neither an error section nor a download, launches no process, and
    leaves the session and every path of the file system as they were. *)
Theorem convert_files_empty_batch env q ff w :
  tmp_fresh env (fs w) ->
  let r := convert_files env [] q ff w in
  r.1 = Ret tt
  /\ ui r.2 = ui w ++ [st_progress (PInt 0); st_empty] ++ report_events 0 0
  /\ session r.2 = session w
  /\ launched r.2 = launched w
  /\ forall p, path_exists p (fs r.2) = path_exists p (fs w).
Proof.
  intros Hfresh. cbn zeta. rewrite (convert_files_run env [] q ff w Hfresh).
  cbn. rewrite !app_nil_r. repeat split.
  intros p. fold (batch_fs (mkdtemp env (fs w)) (fs w)).
  destruct (is_under (mkdtemp env (fs w)) p) eqn:Hp.
  - rewrite (rmtree_removes _ _ _ Hp). symmetry. apply Hfresh. exact Hp.
  - rewrite (rmtree_keeps _ _ _ Hp). apply batch_fs_keeps. exact Hp.
Qed.

Lemma convert_files_empty_batch_witness :
  (convert_files Scenario.copy_tool [] "192k" "ffmpeg" Scenario.world0).1 = Ret tt
  /\ ui (convert_files Scenario.copy_tool [] "192k" "ffmpeg" Scenario.world0).2
     = ui Scenario.world0 ++ [st_progress (PInt 0); st_empty] ++ report_events 0 0
  /\ session (convert_files Scenario.copy_tool [] "192k" "ffmpeg" Scenario.world0).2
     = session Scenario.world0
  /\ launched (convert_files Scenario.copy_tool [] "192k" "ffmpeg" Scenario.world0).2
     = launched Scenario.world0
  /\ forall p,
       path_exists p (fs (convert_files Scenario.copy_tool [] "192k" "ffmpeg"
                                        Scenario.world0).2)
       = path_exists p (fs Scenario.world0).
Proof.
  apply (convert_files_empty_batch Scenario.copy_tool "192k" "ffmpeg" Scenario.world0).
  apply fresh_empty.
Defined.

(** X12. When the temporary copy of an item cannot be written, its
    iteration ends normally: the exception's text is shown with the item's
    name and appended, the same line, to the errors; the tool is not
    launched for that item, the converted files and the disk stay as they
    were. *)
Theorem convert_one_write_failure env Tin Tout q ff n i f l w e :
  n <> 0%nat ->
  bool_decide (path_str (truediv Tin (name f)) ∈ dirs (fs w)) = false ->
  open_wb_error env (path_str (truediv Tin (name f))) (fs w) = Some e ->
  convert_one env Tin Tout q ff n i f l w
  = (Ret (mkLists (converted_files l)
                  (errors l ++ ["❌ " +:+ name f +:+ ": " +:+ exn_msg e])),
     mkWorld (fs w)
       (ui w ++ [ st_progress (PFloat (quotient (i + 1) n));
                  st_status_text (status_line f (i + 1) n);
                  st_error ("❌ " +:+ name f +:+ ": " +:+ exn_msg e) ])
       (session w) (launched w)).
Proof.
  intros Hn Hdir Hopen. rewrite (convert_one_run env Tin Tout q ff n i f l w Hn).
  unfold item_outcome. rewrite Hdir, Hopen. cbn. rewrite !app_nil_r. reflexivity.
Qed.

Lemma convert_one_write_failure_witness :
  convert_one Scenario.picky_tool
    (truediv (Path "/tmp/tmpk3") "input") (truediv (Path "/tmp/tmpk3") "output")
    "192k" "ffmpeg" 4 2 (mkUpload "full.ogg" Scenario.oggs) (mkLists [] [])
    Scenario.world0
  = (Ret (mkLists (converted_files (mkLists [] []))
            (errors (mkLists [] [])
             ++ ["❌ " +:+ name (mkUpload "full.ogg" Scenario.oggs) +:+ ": "
                 +:+ exn_msg (mkExn OSError "[Errno 28] No space left on device")])),
     mkWorld (fs Scenario.world0)
       (ui Scenario.world0
        ++ [ st_progress (PFloat (quotient (2 + 1) 4));
             st_status_text (status_line (mkUpload "full.ogg" Scenario.oggs) (2 + 1) 4);
             st_error ("❌ " +:+ name (mkUpload "full.ogg" Scenario.oggs) +:+ ": "
                       +:+ exn_msg (mkExn OSError
                                      "[Errno 28] No space left on device")) ])
       (session Scenario.world0) (launched Scenario.world0)).
Proof.
  apply (convert_one_write_failure Scenario.picky_tool).
  - lia.
  - vm_compute. reflexivity.
  - vm_compute. reflexivity.
Defined.

(** X13. When the copy is written and the tool's launch does not end with
    exit status 0, the iteration ends normally all the same: the page gets
    the fixed failure message without the diagnostic, the error list gets
    the item's name with the diagnostic (the tool's standard error, or the
    text of the exception the launch raised), nothing joins the converted
    files, and the one command launched is the conversion. *)
Theorem convert_one_tool_failure env Tin Tout q ff n i f l w o f2 :
  n <> 0%nat ->
  bool_decide (path_str (truediv Tin (name f)) ∈ dirs (fs w)) = false ->
  open_wb_error env (path_str (truediv Tin (name f))) (fs w) = None ->
  spawn env
    (ffmpeg_cmd (path_str (truediv Tin (name f))) (path_str Tout) q ff)
    (mkFS (<[path_str (truediv Tin (name f)) := data f]> (files (fs w)))
          (dirs (fs w)))
  = (o, f2) ->
  (forall so se, o <> Exited 0 so se) ->
  convert_one env Tin Tout q ff n i f l w
  = (Ret (mkLists (converted_files l)
                  (errors l ++ ["❌ " +:+ name f +:+ ": " +:+ diagnostic_of o])),
     mkWorld f2
       (ui w ++ [ st_progress (PFloat (quotient (i + 1) n));
                  st_status_text (status_line f (i + 1) n);
                  st_error ("❌ " +:+ name f +:+ " の変換に失敗しました") ])
       (session w)
       (launched w
        ++ [ffmpeg_cmd (path_str (truediv Tin (name f))) (path_str Tout) q ff])).
Proof.
  intros Hn Hdir Hopen Hrun Hfail.
  rewrite (convert_one_run env Tin Tout q ff n i f l w Hn).
  unfold item_outcome. rewrite Hdir, Hopen. cbn zeta. rewrite Hrun.
  destruct o as [rc so se|e].
  - destruct (rc =? 0) eqn:Hrc.
    + apply Z.eqb_eq in Hrc. subst rc. destruct (Hfail so se). reflexivity.
    + cbn. rewrite !app_nil_r. reflexivity.
  - cbn. rewrite !app_nil_r. reflexivity.
Qed.

Lemma convert_one_tool_failure_witness :
  convert_one Scenario.picky_tool
    (truediv (Path "/tmp/tmpk3") "input") (truediv (Path "/tmp/tmpk3") "output")
    "192k" "ffmpeg" 4 1 (mkUpload "corrupt.mp3" Scenario.id3) (mkLists [] [])
    Scenario.world0
  = (Ret (mkLists (converted_files (mkLists [] []))
            (errors (mkLists [] [])
             ++ ["❌ " +:+ name (mkUpload "corrupt.mp3" Scenario.id3) +:+ ": "
                 +:+ diagnostic_of
                       (spawn Scenario.picky_tool
                          (ffmpeg_cmd "/tmp/tmpk3/input/corrupt.mp3"
                                      "/tmp/tmpk3/output" "192k" "ffmpeg")
                          (mkFS {[ "/tmp/tmpk3/input/corrupt.mp3" := Scenario.id3 ]}
                                ∅)).1])),
     mkWorld
       (spawn Scenario.picky_tool
          (ffmpeg_cmd "/tmp/tmpk3/input/corrupt.mp3" "/tmp/tmpk3/output"
                      "192k" "ffmpeg")
          (mkFS {[ "/tmp/tmpk3/input/corrupt.mp3" := Scenario.id3 ]} ∅)).2
       (ui Scenario.world0
        ++ [ st_progress (PFloat (quotient (1 + 1) 4));
             st_status_text
               (status_line (mkUpload "corrupt.mp3" Scenario.id3) (1 + 1) 4);
             st_error ("❌ " +:+ name (mkUpload "corrupt.mp3" Scenario.id3)
                       +:+ " の変換に失敗しました") ])
       (session Scenario.world0)
       (launched Scenario.world0
        ++ [ffmpeg_cmd
              (path_str (truediv (truediv (Path "/tmp/tmpk3") "input")
                                 (name (mkUpload "corrupt.mp3" Scenario.id3))))
              (path_str (truediv (Path "/tmp/tmpk3") "output")) "192k" "ffmpeg"])).
Proof.
  apply (convert_one_tool_failure Scenario.picky_tool).
  - lia.
  - vm_compute. reflexivity.
  - vm_compute. reflexivity.
  - vm_compute. reflexivity.
  - intros so se H. vm_compute in H. discriminate H.
Defined.

(** ** The error section *)

Lemma written_lines_app a b :
  written_lines (a ++ b) = written_lines a ++ written_lines b.
Proof. apply omap_app. Qed.

Lemma written_batch_events n items :
  forall i rs, written_lines (batch_events n i items rs) = [].
Proof.
  induction items as [|f items IH]; intros i [|r rs]; try reflexivity.
  cbn [batch_events]. rewrite written_lines_app, IH.
  destruct r; reflexivity.
Qed.

Lemma written_error_events errs : written_lines (error_events errs) = errs.
Proof.
  assert (H : forall l, written_lines (List.map st_write l) = l).
  { induction l as [|e l IH]; [reflexivity|].
    cbn. unfold written_lines in IH. rewrite IH. reflexivity. }
  destruct errs as [|e errs]; [reflexivity|].
  unfold error_events. change (written_lines (?x :: ?l)) with (written_lines l).
  apply H.
Qed.

Lemma offer_download_section env converted w :
  exists dl, ui (offer_download env converted w).2 = ui w ++ dl
             /\ forallb in_download_section dl = true
             /\ written_lines dl = [].
Proof.
  rewrite offer_download_run. destruct converted as [|p [|p2 rest]].
  - exists []. cbn. rewrite app_nil_r. repeat split.
  - cbn zeta. destruct (open_rb_read p _) as [[b|e] w']; eexists;
      (split; [reflexivity|split; reflexivity]).
  - eexists. split; [reflexivity|split; reflexivity].
Qed.

(** X14. After the report of a batch run in a new temporary directory the
    page shows the error section and then, at most, the download section:
    the error section is absent when no item failed, and otherwise is the
    sub-header followed by one written line per failed item, in input
    order, each the item's name with its diagnostic; [convert_files] writes
    no other line. *)
Theorem error_section_lists_failures env items q ff w :
  tmp_fresh env (fs w) ->
  let rs := batch_results env items q ff w in
  let w' := (convert_files env items q ff w).2 in
  exists dl,
    ui w' = ui w ++ [st_progress (PInt 0); st_empty]
                 ++ batch_events (List.length items) 0 items rs
                 ++ report_events (List.length (outputs rs))
                                  (List.length (error_lines items rs))
                 ++ error_events (error_lines items rs)
                 ++ dl
    /\ forallb in_download_section dl = true
    /\ written_lines (ui w') = written_lines (ui w) ++ error_lines items rs.
Proof.
  intros Hfresh. cbn zeta. unfold batch_results, batch_fs.
  rewrite (convert_files_run env items q ff w Hfresh). cbn zeta.
  destruct (batch_outcome _ _ _ _ _ items _) as [[rs f1] cmds].
  cbn [fst].
  match goal with
  | |- context [offer_download env ?c ?w1] =>
      destruct (offer_download_section env c w1) as (dl & Hdl & Hsec & Hnone);
      destruct (offer_download env c w1) as [r w2]
  end.
  cbn [snd ui leave_tmp] in *. exists dl. split; [|split].
  - rewrite Hdl, <- !app_assoc. reflexivity.
  - exact Hsec.
  - rewrite Hdl, !written_lines_app, written_batch_events, written_error_events, Hnone.
    cbn. rewrite !app_nil_r. reflexivity.
Qed.

Lemma error_section_lists_failures_witness :
  exists dl,
    ui (convert_files Scenario.picky_tool Scenario.mixed_batch "192k" "ffmpeg"
                      Scenario.world0).2
    = ui Scenario.world0 ++ [st_progress (PInt 0); st_empty]
        ++ batch_events (List.length Scenario.mixed_batch) 0 Scenario.mixed_batch
             (batch_results Scenario.picky_tool Scenario.mixed_batch "192k" "ffmpeg"
                            Scenario.world0)
        ++ report_events
             (List.length
                (outputs (batch_results Scenario.picky_tool Scenario.mixed_batch
                                        "192k" "ffmpeg" Scenario.world0)))
             (List.length
                (error_lines Scenario.mixed_batch
                   (batch_results Scenario.picky_tool Scenario.mixed_batch
                                  "192k" "ffmpeg" Scenario.world0)))
        ++ error_events
             (error_lines Scenario.mixed_batch
                (batch_results Scenario.picky_tool Scenario.mixed_batch
                               "192k" "ffmpeg" Scenario.world0))
        ++ dl
    /\ forallb in_download_section dl = true
    /\ written_lines
         (ui (convert_files Scenario.picky_tool Scenario.mixed_batch "192k" "ffmpeg"
                            Scenario.world0).2)
       = written_lines (ui Scenario.world0)
         ++ error_lines Scenario.mixed_batch
              (batch_results Scenario.picky_tool Scenario.mixed_batch
                             "192k" "ffmpeg" Scenario.world0).
Proof.
  apply (error_section_lists_failures Scenario.picky_tool Scenario.mixed_batch
           "192k" "ffmpeg" Scenario.world0).
  apply fresh_empty.
Defined.

(** The failures of the mixed batch, as written. *)
Example mixed_batch_error_section :
  written_lines
    (ui (convert_files Scenario.picky_tool Scenario.mixed_batch "192k" "ffmpeg"
                       Scenario.world0).2)
  = [ "❌ corrupt.mp3: Invalid data found when processing input";
      "❌ full.ogg: [Errno 28] No space left on device" ].
Proof. vm_compute. reflexivity. Qed.

(** ** Archive names and temporary paths *)

Lemma drop_zero s : PyStr.drop 0 s = s.
Proof.
  unfold PyStr.drop. rewrite Nat.sub_0_r.
  induction s as [|a s IH]; [reflexivity|]. cbn. rewrite IH. reflexivity.
Qed.

Lemma drop_succ i a s : PyStr.drop (S i) (String a s) = PyStr.drop i s.
Proof. reflexivity. Qed.

Lemma rfind_none_inv c s : PyStr.rfind c s = None -> PyStr.contains c s = false.
Proof.
  induction s as [|a s IH]; [reflexivity|]. cbn.
  destruct (PyStr.rfind c s) as [j|]; [discriminate|].
  destruct (Ascii.eqb a c); [discriminate|]. intros _. apply IH. reflexivity.
Qed.

Lemma rfind_last c s :
  forall i, PyStr.rfind c s = Some i -> PyStr.contains c (PyStr.drop (S i) s) = false.
Proof.
  induction s as [|a s IH]; intros i; [discriminate|]. cbn [PyStr.rfind].
  rewrite drop_succ.
  destruct (PyStr.rfind c s) as [j|] eqn:Hj.
  - intros [= <-]. apply IH. reflexivity.
  - destruct (Ascii.eqb a c); [|discriminate]. intros [= <-].
    rewrite drop_zero. apply rfind_none_inv. exact Hj.
Qed.

Lemma basename_no_sep p : PyStr.contains posixpath.sep (posixpath.basename p) = false.
Proof.
  unfold posixpath.basename.
  destruct (PyStr.rfind posixpath.sep p) as [i|] eqn:Hi.
  - apply rfind_last. exact Hi.
  - apply rfind_none_inv. exact Hi.
Qed.

Lemma zip_arcname_no_sep b :
  PyStr.contains posixpath.sep b = false ->
  PyStr.contains posixpath.sep (zip_arcname b) = false.
Proof. intros H. unfold zip_arcname. destruct (PyStr.is_empty b); [reflexivity|exact H]. Qed.

(** X15. The archive [create_zip_file] builds keeps no directory structure:
    whatever the paths, each member is named by a single component without
    a separator (a directory's followed by one slash), there is at most one
    member per path, and building the archive changes nothing in the
    world. *)
Theorem archive_members_are_flat env paths zn w :
  exists entries,
    create_zip_file env paths zn w = (Ret entries, w)
    /\ (List.length entries <= List.length paths)%nat
    /\ Forall (fun e =>
                 exists base,
                   PyStr.contains posixpath.sep base = false
                   /\ arcname e = if is_dir_entry e then base +:+ "/" else base)
              entries.
Proof.
  exists (zip_members env (fs w) paths).
  split; [apply create_zip_file_run|]. split.
  - induction paths as [|p ps IH]; [reflexivity|].
    rewrite zip_members_cons. destruct (zip_member env (fs w) p); cbn; lia.
  - induction paths as [|p ps IH]; [constructor|].
    rewrite zip_members_cons. unfold zip_member at 1.
    destruct (files (fs w) !! p) as [b|].
    + constructor; [|exact IH].
      exists (zip_arcname (posixpath.basename p)).
      split; [apply zip_arcname_no_sep, basename_no_sep|reflexivity].
    + destruct (bool_decide (p ∈ dirs (fs w))); [|exact IH].
      constructor; [|exact IH].
      exists (zip_arcname (posixpath.basename p)).
      split; [apply zip_arcname_no_sep, basename_no_sep|reflexivity].
Qed.






(** An absolute name is copied to that very place, which may be where a
    conversion goes. *)
Example absolute_name_meets_output :
  input_copy "/tmp/tmpk3" (mkUpload "/tmp/tmpk3/output/a.m4a" Scenario.riff)
  = output_of "/tmp/tmpk3" (mkUpload "a.wav" Scenario.riff).
Proof. vm_compute. reflexivity. Qed.

(** ** When a batch raises *)

(** X17. The single download is not guarded.  In a new temporary
    directory, a batch in which no item was converted returns normally,
    whatever made the items fail; a batch in which exactly one item was
    converted, and whose output is not a file when the download is
    prepared, raises out of [convert_files]: the path is opened without the
    existence test the archive has, which ends the batch with
    [FileNotFoundError], or with [IsADirectoryError] when the path is a
    directory. *)
Theorem single_download_is_unguarded env items q ff w :
  tmp_fresh env (fs w) ->
  let rs := batch_results env items q ff w in
  let disk := batch_disk env items q ff w in
  (outputs rs = [] -> (convert_files env items q ff w).1 = Ret tt)
  /\ (forall p,
        outputs rs = [p] -> files disk !! p = None ->
        (convert_files env items q ff w).1
        = if bool_decide (p ∈ dirs disk)
          then Raise (mkExn IsADirectoryError
                        ("[Errno 21] Is a directory: '" +:+ p +:+ "'"))
          else Raise (mkExn FileNotFoundError
                        ("[Errno 2] No such file or directory: '" +:+ p +:+ "'"))).
Proof.
  intros Hfresh. cbn zeta. unfold batch_results, batch_disk, batch_fs.
  rewrite (convert_files_run env items q ff w Hfresh). cbn zeta.
  destruct (batch_outcome _ _ _ _ _ items _) as [[rs f1] cmds].
  cbn [fst snd]. rewrite offer_download_run. split.
  - intros ->. reflexivity.
  - intros p -> Hmiss. cbn zeta.
    unfold open_rb_read, bind, get_fs, ret, raise. cbn [fs].
    rewrite Hmiss. destruct (bool_decide (p ∈ dirs f1)); reflexivity.
Qed.

Lemma single_download_is_unguarded_witness :
  (convert_files Scenario.silent_tool [mkUpload "song.wav" Scenario.riff]
                 "192k" "ffmpeg" Scenario.world0).1
  = Raise (mkExn FileNotFoundError
             "[Errno 2] No such file or directory: '/tmp/tmpk3/output/song.m4a'").
Proof.
  pose proof (single_download_is_unguarded Scenario.silent_tool
                [mkUpload "song.wav" Scenario.riff] "192k" "ffmpeg" Scenario.world0
                (fresh_empty _)) as [_ H].
  refine (eq_trans (H "/tmp/tmpk3/output/song.m4a" _ _) _).
  - vm_compute. reflexivity.
  - vm_compute. reflexivity.
  - vm_compute. reflexivity.
Defined.

(** ** A search that raises *)

(** X18. On the first run of the page, an exception the search lets
    through ends [main] with that exception: the page stops at the
    spinner, with neither the blocking report nor the success line; the
    session keeps its two keys as initialised, the search not marked as
    done, so that the next run searches again; and no conversion was
    launched. *)
Theorem main_search_interrupted env inp w e :
  ffmpeg_checked (session w) = None ->
  (check_ffmpeg env (probe_world w)).1 = Raise e ->
  let r := main env inp w in
  r.1 = Raise e
  /\ ui r.2 = ui w ++ page_top ++ [st_spinner "FFmpegを確認中..."]
  /\ session r.2 = mkSession (Some false) (Some None)
  /\ exists qs, launched r.2 = launched w ++ qs
                /\ Forall (fun argv => is_version_query argv = true) qs.
Proof.
  intros Hfirst Hraise. cbn zeta.
  pose proof (check_ffmpeg_from_frame env ffmpeg_paths (probe_world w))
    as (Hu & Hs & qs & Hl & Hq).
  cbn zeta in Hu, Hs, Hl. fold (check_ffmpeg env) in Hu, Hs, Hl.
  rewrite (main_first_run env inp w Hfirst).
  destruct (check_ffmpeg env (probe_world w)) as [[found|e'] w1];
    cbn [fst snd] in *; [discriminate|].
  injection Hraise as ->.
  split; [reflexivity|]. split; [exact Hu|]. split; [exact Hs|].
  exists qs. split; [exact Hl|exact Hq].
Qed.

Lemma main_search_interrupted_witness :
  (main Scenario.unpacked_env eager_input Scenario.unpacked_world).1
  = Raise (mkExn PermissionError "[Errno 13] Permission denied: '../ffmpeg'")
  /\ ui (main Scenario.unpacked_env eager_input Scenario.unpacked_world).2
     = ui Scenario.unpacked_world ++ page_top ++ [st_spinner "FFmpegを確認中..."]
  /\ session (main Scenario.unpacked_env eager_input Scenario.unpacked_world).2
     = mkSession (Some false) (Some None)
  /\ exists qs,
       launched (main Scenario.unpacked_env eager_input Scenario.unpacked_world).2
       = launched Scenario.unpacked_world ++ qs
       /\ Forall (fun argv => is_version_query argv = true) qs.
Proof.
  apply (main_search_interrupted Scenario.unpacked_env eager_input
           Scenario.unpacked_world).
  - reflexivity.
  - vm_compute. reflexivity.
Defined.
